(** * Garefowl: the multi-provider LLM orchestration core

    A shallow embedding of the request adapters ([lib/llmProviders.js]),
    the two tool executors (the SearXNG search client and the YouTube
    transcript fetcher) and the tool-call loop of the panel extension,
    together with the properties the specification states about them.

    Conventions.  JavaScript values that come out of [JSON.parse] are
    modelled by [JValue]; an operation that may raise is a [Completion];
    strings are sequences of 8-bit code units, a code unit being read as the
    code point of the same number.  The builtins of the
    platform ([JSON.parse], [JSON.stringify], string conversion in
    template literals) are not code of the extension: they are fields of
    the [Platform] class and every definition that calls one is
    parameterised by it. *)

From Stdlib Require Import List ZArith QArith Lia Bool DecimalString Ascii String.
Import ListNotations.
Close Scope Q_scope.
Open Scope string_scope.

Set Implicit Arguments.

(* ================================================================= *)
(** ** JavaScript strings *)

Module JsString.

Definition dquote : string := String (ascii_of_nat 34) EmptyString.
Definition nl : string := String (ascii_of_nat 10) EmptyString.

(** [s.startsWith(p)] *)
Definition startsWith (s p : string) : bool := prefix p s.

(** [s.includes(sub)] *)
Fixpoint includes (s sub : string) : bool :=
  if prefix sub s then true
  else match s with
       | EmptyString => false
       | String _ r => includes r sub
       end.

(** [s.indexOf(sub)], [None] standing for -1 *)
Fixpoint indexOf (s sub : string) : option nat :=
  if prefix sub s then Some 0
  else match s with
       | EmptyString => None
       | String _ r => option_map S (indexOf r sub)
       end.

(** [s.substring(n)] *)
Fixpoint skip (n : nat) (s : string) : string :=
  match n, s with
  | 0, _ => s
  | S k, String _ r => skip k r
  | S _, EmptyString => EmptyString
  end.

(** White space of ECMAScript among the code points below 256 (a code unit
    is read as the code point of the same number). *)
Definition isWhiteSpace (c : ascii) : bool :=
  let n := N_of_ascii c in
  ((9 <=? n) && (n <=? 13) || (n =? 32) || (n =? 160))%N.

Fixpoint trimStart (s : string) : string :=
  match s with
  | String c r => if isWhiteSpace c then trimStart r else s
  | EmptyString => EmptyString
  end.

Fixpoint trimEnd (s : string) : string :=
  match s with
  | EmptyString => EmptyString
  | String c r =>
      match trimEnd r with
      | EmptyString => if isWhiteSpace c then EmptyString else String c EmptyString
      | r' => String c r'
      end
  end.

(** [s.trim()] *)
Definition trim (s : string) : string := trimEnd (trimStart s).

(** [s.split(sep)] for a one-character separator *)
Fixpoint split (sep : ascii) (s : string) : list string :=
  match s with
  | EmptyString => [EmptyString]
  | String c r =>
      if Ascii.eqb c sep then EmptyString :: split sep r
      else match split sep r with
           | h :: t => String c h :: t
           | [] => [String c EmptyString]
           end
  end.

(** [lines.join(sep)] *)
Definition join (sep : string) (l : list string) : string := String.concat sep l.

Definition isDigit (c : ascii) : bool :=
  let n := N_of_ascii c in ((48 <=? n) && (n <=? 57))%N.

Definition isUpper (c : ascii) : bool :=
  let n := N_of_ascii c in ((65 <=? n) && (n <=? 90))%N.

Definition isLower (c : ascii) : bool :=
  let n := N_of_ascii c in ((97 <=? n) && (n <=? 122))%N.

Fixpoint forallb_string (p : ascii -> bool) (s : string) : bool :=
  match s with
  | EmptyString => true
  | String c r => p c && forallb_string p r
  end.

(** [s.toLowerCase()], a code unit being read as the code point of the
    same number: the capital letters are A to Z and the code points 192 to
    222 but 215, each 32 below its small letter. *)
Definition lowerChar (c : ascii) : ascii :=
  let n := N_of_ascii c in
  if isUpper c || ((192 <=? n) && (n <=? 222) && negb (n =? 215))%N
  then ascii_of_N (n + 32) else c.

Fixpoint toLowerCase (s : string) : string :=
  match s with
  | EmptyString => EmptyString
  | String c r => String (lowerChar c) (toLowerCase r)
  end.

Definition isEmpty (s : string) : bool :=
  match s with EmptyString => true | _ => false end.

End JsString.

(* ================================================================= *)
(** ** JavaScript values and abrupt completion *)

Inductive Exn : Type :=
| TypeError (what : string)
| SyntaxError (what : string)
| HostError (what : string).

Definition exn_message (e : Exn) : string :=
  match e with TypeError m | SyntaxError m | HostError m => m end.

Inductive Completion (A : Type) : Type :=
| Return (a : A)
| Throw (e : Exn).

Arguments Return {A} a.
Arguments Throw {A} e.

Definition bind {A B} (c : Completion A) (k : A -> Completion B) : Completion B :=
  match c with
  | Return a => k a
  | Throw e => Throw e
  end.

Notation "'let*' x ':=' c 'in' k" := (bind c (fun x => k))
  (at level 10, x pattern, c at level 100, k at level 200).

(** [try { c } catch (e) { h }] *)
Definition try_catch {A} (c : Completion A) (h : Exn -> A) : A :=
  match c with
  | Return a => a
  | Throw e => h e
  end.

Fixpoint mapM {A B} (f : A -> Completion B) (l : list A) : Completion (list B) :=
  match l with
  | [] => Return []
  | a :: r => let* b := f a in let* bs := mapM f r in Return (b :: bs)
  end.

#[local] Unset Elimination Schemes.
Inductive JValue : Type :=
| JUndefined
| JNull
| JBool (b : bool)
| JNum (q : Q)
| JStr (s : string)
| JArr (items : list JValue)
| JObj (fields : list (string * JValue)).
#[local] Set Elimination Schemes.

Module Js.

Definition num (z : Z) : JValue := JNum (inject_Z z).

Fixpoint lookup (p : string) (fs : list (string * JValue)) : JValue :=
  match fs with
  | [] => JUndefined
  | (k, v) :: r => if String.eqb k p then v else lookup p r
  end.

Definition isNullish (v : JValue) : bool :=
  match v with JUndefined | JNull => true | _ => false end.

(** [v.p] *)
Definition get (v : JValue) (p : string) : Completion JValue :=
  match v with
  | JUndefined | JNull => Throw (TypeError ("cannot read property " ++ p))
  | JObj fs => Return (lookup p fs)
  | JArr l =>
      if String.eqb p "length" then Return (num (Z.of_nat (List.length l)))
      else Return JUndefined
  | JStr s =>
      if String.eqb p "length" then Return (num (Z.of_nat (String.length s)))
      else Return JUndefined
  | JBool _ | JNum _ => Return JUndefined
  end.

(** [v?.p] *)
Definition opt_get (v : JValue) (p : string) : Completion JValue :=
  if isNullish v then Return JUndefined else get v p.

(** [v[0]] *)
Definition first (v : JValue) : Completion JValue :=
  match v with
  | JUndefined | JNull => Throw (TypeError "cannot read property 0")
  | JArr l => Return (nth 0 l JUndefined)
  | JStr (String c _) => Return (JStr (String c EmptyString))
  | JObj fs => Return (lookup "0" fs)
  | _ => Return JUndefined
  end.

(** [v?.[0]] *)
Definition opt_first (v : JValue) : Completion JValue :=
  if isNullish v then Return JUndefined else first v.

(** ToBoolean *)
Definition truthy (v : JValue) : bool :=
  match v with
  | JUndefined | JNull => false
  | JBool b => b
  | JNum q => negb (Qeq_bool q 0)
  | JStr s => negb (JsString.isEmpty s)
  | JArr _ | JObj _ => true
  end.

Definition isArray (v : JValue) : bool :=
  match v with JArr _ => true | _ => false end.

(** [typeof v === 'string'] *)
Definition isString (v : JValue) : bool :=
  match v with JStr _ => true | _ => false end.

(** [typeof v === 'object'] (which holds of [null] too) *)
Definition isTypeofObject (v : JValue) : bool :=
  match v with JNull | JArr _ | JObj _ => true | _ => false end.

(** [v === "literal"] *)
Definition strictEqStr (v : JValue) (s : string) : bool :=
  match v with JStr t => String.eqb t s | _ => false end.

Fixpoint chars (s : string) : list JValue :=
  match s with
  | EmptyString => []
  | String c r => JStr (String c EmptyString) :: chars r
  end.

(** The sequence a [for (const x of v)] loop runs over. *)
Definition iterate (v : JValue) : Completion (list JValue) :=
  match v with
  | JArr l => Return l
  | JStr s => Return (chars s)
  | _ => Throw (TypeError "value is not iterable")
  end.

(** [a || b] *)
Definition or (a b : JValue) : JValue := if truthy a then a else b.

End Js.

(** The builtins of the platform the extension calls. *)
Class Platform : Type := {
  (** [JSON.parse(v)]: a non-string argument is first converted to a string. *)
  JSON_parse : JValue -> Completion JValue;
  (** [JSON.stringify(v)] *)
  JSON_stringify : JValue -> string;
  (** string conversion, as in a template literal [`${v}`] *)
  ToString : JValue -> string
}.

(* ================================================================= *)
(** ** lib/constants.js *)

Module LLMProviders.
Definition ANTHROPIC := "anthropic".
Definition OPENAI := "openai".
Definition GEMINI := "gemini".
Definition OPENROUTER := "openrouter".
Definition OLLAMA := "ollama".
Definition GROQ := "groq".
End LLMProviders.

Module MessageRoles.
Definition USER := "user".
Definition ASSISTANT := "assistant".
Definition MODEL := "model".
End MessageRoles.

Definition obj_string (k v : string) : string * JValue := (k, JStr v).

Definition WEB_SEARCH_TOOL : JValue :=
  JObj [
    obj_string "name" "web_search";
    obj_string "description" "Search the web for current, real-time information. ALWAYS use this tool when the user asks about: current weather, today's date/time, latest news, recent events, current stock prices, live sports scores, or anything containing words like 'today', 'now', 'current', 'latest', 'recent'. This tool provides up-to-date information that you don't have in your training data.";
    ("input_schema", JObj [
       obj_string "type" "object";
       ("properties", JObj [
          ("query", JObj [
             obj_string "type" "string";
             obj_string "description" "Search query with relevant keywords. Be specific and include temporal terms like 'today', 'current', 'latest' when relevant."])]);
       ("required", JArr [JStr "query"])])].

Definition YOUTUBE_SUMMARY_TOOL : JValue :=
  JObj [
    obj_string "name" "youtube_summary";
    obj_string "description" "Get transcript and summary of a YouTube video. Use this when user provides a YouTube URL or asks to summarize a YouTube video. The video must have subtitles/captions available.";
    ("input_schema", JObj [
       obj_string "type" "object";
       ("properties", JObj [
          ("video_url", JObj [
             obj_string "type" "string";
             obj_string "description" "YouTube video URL (e.g., https://www.youtube.com/watch?v=VIDEO_ID or https://youtu.be/VIDEO_ID)"])]);
       ("required", JArr [JStr "video_url"])])].

(** A field of one of the two constant descriptors above. *)
Definition field (tool : JValue) (p : string) : JValue :=
  match tool with JObj fs => Js.lookup p fs | _ => JUndefined end.

(* ================================================================= *)
(** ** The conversation history *)

Record Turn : Type := { role : string; content : string }.

Definition message (r c : string) : JValue :=
  JObj [obj_string "role" r; obj_string "content" c].

(** A turn as the object stored in [this._history]. *)
Definition turn_json (t : Turn) : JValue := message (role t) (content t).

(* ================================================================= *)
(** ** lib/llmProviders.js: the provider adapters *)

Inductive ProviderKind : Type :=
| Anthropic | OpenAI | Gemini | OpenRouter | Ollama | Groq.

(** The fields [LLMProvider]'s constructor stores. *)
Record LLMProvider : Type := {
  kind : ProviderKind;
  _apiKey : string;
  _model : string;
  _enableWebSearch : bool
}.

(** The text every adapter but Anthropic's and Gemini's sends as a
    system message when the tools are on. *)
Definition SYSTEM_INSTRUCTION : string :=
  "You have web_search and youtube_summary tools. Use them when appropriate. When messages contain [WEB SEARCH RESULTS] or [YOUTUBE VIDEO TRANSCRIPT], answer ONLY using that data.".

Definition ANTHROPIC_SYSTEM : string :=
  "You have access to web_search and youtube_summary tools. Use web_search for real-time info and youtube_summary when user provides YouTube URLs. When messages contain [WEB SEARCH RESULTS] or [YOUTUBE VIDEO TRANSCRIPT], answer ONLY using that data.".

Definition GEMINI_PREAMBLE : string :=
  "[SYSTEM: You have web_search and youtube_summary tools. Use them when appropriate. When messages contain [WEB SEARCH RESULTS] or [YOUTUBE VIDEO TRANSCRIPT], answer ONLY using that data.]"
  ++ JsString.nl ++ JsString.nl.

(** [msg.role === MessageRoles.USER ? MessageRoles.USER : other] *)
Definition user_or (other : string) (r : string) : string :=
  if String.eqb r MessageRoles.USER then MessageRoles.USER else other.

(** The tool in the dialect with a [function] wrapper. *)
Definition function_tool (tool : JValue) : JValue :=
  JObj [
    obj_string "type" "function";
    ("function", JObj [
       ("name", field tool "name");
       ("description", field tool "description");
       ("parameters", field tool "input_schema")])].

Definition function_tools : JValue :=
  JArr [function_tool WEB_SEARCH_TOOL; function_tool YOUTUBE_SUMMARY_TOOL].

(** [tool_calls.map(tc => ({id, name, input}))] gives these. *)
Record ToolCall : Type := { id : JValue; name : JValue; input : JValue }.

Module AnthropicProvider.

Definition _getEndpointUrl (p : LLMProvider) : string :=
  "https://api.anthropic.com/v1/messages".

Definition supportsTools (p : LLMProvider) : bool := true.

Definition flat_tool (tool : JValue) : JValue :=
  JObj [
    ("name", field tool "name");
    ("description", field tool "description");
    ("input_schema", field tool "input_schema")].

Definition _generateRequestBody (p : LLMProvider) (history : list Turn) : JValue :=
  let body := [
    obj_string "model" (_model p);
    ("messages", JArr (map (fun msg =>
       message (user_or MessageRoles.ASSISTANT (role msg)) (content msg)) history));
    ("max_tokens", Js.num 4096)] in
  if _enableWebSearch p && supportsTools p then
    JObj (body ++ [
      ("tools", JArr [flat_tool WEB_SEARCH_TOOL; flat_tool YOUTUBE_SUMMARY_TOOL]);
      obj_string "system" ANTHROPIC_SYSTEM])%list
  else JObj body.

(** The loop over the blocks, leaving at the first [tool_use] block. *)
Fixpoint first_tool_use (blocks : list JValue) : Completion (option (list ToolCall)) :=
  match blocks with
  | [] => Return None
  | block :: rest =>
      let* ty := Js.get block "type" in
      if Js.strictEqStr ty "tool_use" then
        let* i := Js.get block "id" in
        let* n := Js.get block "name" in
        let* a := Js.get block "input" in
        Return (Some [{| id := i; name := n; input := a |}])
      else first_tool_use rest
  end.

Definition _extractToolCalls (response : JValue) : Completion (option (list ToolCall)) :=
  let* c := Js.get response "content" in
  if Js.truthy c then
    let* blocks := Js.iterate c in first_tool_use blocks
  else Return None.

(** The loop over the blocks, leaving at the first non-empty text block. *)
Fixpoint first_text (blocks : list JValue) : Completion JValue :=
  match blocks with
  | [] => Return (JStr "")
  | block :: rest =>
      let* ty := Js.get block "type" in
      if Js.strictEqStr ty "text" then
        let* t := Js.get block "text" in
        if Js.truthy t then Return t else first_text rest
      else first_text rest
  end.

Definition _extractResponseText (response : JValue) : Completion JValue :=
  let* c := Js.get response "content" in
  if negb (Js.truthy c) || negb (Js.isArray c) then Return (JStr "")
  else let* blocks := Js.iterate c in first_text blocks.

End AnthropicProvider.

(** What the OpenAI, OpenRouter and Groq adapters share word for word. *)
Module ChatCompletions.
Section WithPlatform.
Context {P : Platform}.

(** [response.choices?.[0]?.message?.tool_calls] *)
Definition tool_calls_of (response : JValue) : Completion JValue :=
  let* cs := Js.get response "choices" in
  let* c := Js.opt_first cs in
  let* m := Js.opt_get c "message" in
  Js.opt_get m "tool_calls".

Definition to_call (tc : JValue) : Completion ToolCall :=
  let* i := Js.get tc "id" in
  let* f := Js.get tc "function" in
  let* n := Js.get f "name" in
  let* a := Js.get f "arguments" in
  let* parsed := JSON_parse a in
  Return {| id := i; name := n; input := parsed |}.

(** [x.map(f)]: only an array has the method. *)
Definition array_map {B} (x : JValue) (f : JValue -> Completion B) : Completion (list B) :=
  match x with
  | JArr l => mapM f l
  | JUndefined | JNull => Throw (TypeError "cannot read property map")
  | _ => Throw (TypeError "map is not a function")
  end.

Definition _extractToolCalls (response : JValue) : Completion (option (list ToolCall)) :=
  let* tcs := tool_calls_of response in
  if Js.truthy tcs then
    let* l := array_map tcs to_call in Return (Some l)
  else Return None.

(** [response.choices[0].message.content] *)
Definition _extractResponseText (response : JValue) : Completion JValue :=
  let* cs := Js.get response "choices" in
  let* c := Js.first cs in
  let* m := Js.get c "message" in
  Js.get m "content".

End WithPlatform.
End ChatCompletions.

Module OpenAIProvider.

Definition _getEndpointUrl (p : LLMProvider) : string :=
  "https://api.openai.com/v1/chat/completions".

Definition supportsTools (p : LLMProvider) : bool := true.

Definition _generateRequestBody (p : LLMProvider) (history : list Turn) : JValue :=
  let messages := map (fun msg =>
    message (user_or MessageRoles.ASSISTANT (role msg)) (content msg)) history in
  let messages :=
    if _enableWebSearch p && supportsTools p
    then message "system" SYSTEM_INSTRUCTION :: messages else messages in
  let body := [
    obj_string "model" (_model p);
    ("messages", JArr messages);
    ("temperature", Js.num 1);
    ("max_completion_tokens", Js.num 4096);
    ("top_p", Js.num 1);
    ("frequency_penalty", Js.num 0);
    ("presence_penalty", Js.num 0)] in
  if _enableWebSearch p && supportsTools p
  then JObj (body ++ [("tools", function_tools)])%list
  else JObj body.

End OpenAIProvider.

Module GeminiProvider.

Definition _getEndpointUrl (p : LLMProvider) : string :=
  "https://generativelanguage.googleapis.com/v1beta/models/" ++ _model p
  ++ ":generateContent?key=" ++ _apiKey p.

Definition supportsTools (p : LLMProvider) : bool := true.

Definition content_entry (r text : string) : JValue :=
  JObj [obj_string "role" r; ("parts", JArr [JObj [obj_string "text" text]])].

Definition declaration (tool : JValue) : JValue :=
  JObj [
    ("name", field tool "name");
    ("description", field tool "description");
    ("parameters", field tool "input_schema")].

(** The entries as (role, text) pairs, before they are put in the body. *)
Definition contents_of (p : LLMProvider) (history : list Turn) : list (string * string) :=
  let contents := map (fun msg => (user_or "model" (role msg), content msg)) history in
  if _enableWebSearch p && supportsTools p then
    match contents with
    | (r, text) :: rest => (r, GEMINI_PREAMBLE ++ text) :: rest
    | [] => contents
    end
  else contents.

Definition _generateRequestBody (p : LLMProvider) (history : list Turn) : JValue :=
  let contents := map (fun e => content_entry (fst e) (snd e)) (contents_of p history) in
  let body := [
    ("contents", JArr contents);
    ("generationConfig", JObj [
       ("temperature", Js.num 1);
       ("topK", Js.num 40);
       ("topP", JNum (95 # 100));
       ("maxOutputTokens", Js.num 8192);
       obj_string "responseMimeType" "text/plain"])] in
  if _enableWebSearch p && supportsTools p then
    JObj (body ++ [
      ("tools", JArr [JObj [
         ("function_declarations",
          JArr [declaration WEB_SEARCH_TOOL; declaration YOUTUBE_SUMMARY_TOOL])]])])%list
  else JObj body.

Fixpoint first_function_call (parts : list JValue) : Completion (option (list ToolCall)) :=
  match parts with
  | [] => Return None
  | part :: rest =>
      let* fc := Js.get part "functionCall" in
      if Js.truthy fc then
        let* n := Js.get fc "name" in
        let* a := Js.get fc "args" in
        Return (Some [{| id := JStr "gemini_call"; name := n; input := a |}])
      else first_function_call rest
  end.

Definition _extractToolCalls (response : JValue) : Completion (option (list ToolCall)) :=
  let* cands := Js.get response "candidates" in
  let* candidate := Js.opt_first cands in
  let* c := Js.opt_get candidate "content" in
  let* parts := Js.opt_get c "parts" in
  if Js.truthy parts then
    let* l := Js.iterate parts in first_function_call l
  else Return None.

(** [response.candidates[0].content.parts[0].text] *)
Definition _extractResponseText (response : JValue) : Completion JValue :=
  let* cands := Js.get response "candidates" in
  let* candidate := Js.first cands in
  let* c := Js.get candidate "content" in
  let* parts := Js.get c "parts" in
  let* part := Js.first parts in
  Js.get part "text".

End GeminiProvider.

Module OpenRouterProvider.

Definition _getEndpointUrl (p : LLMProvider) : string :=
  "https://openrouter.ai/api/v1/chat/completions".

Definition supportsTools (p : LLMProvider) : bool := true.

Definition _generateRequestBody (p : LLMProvider) (history : list Turn) : JValue :=
  let messages := map turn_json history in
  let messages :=
    if _enableWebSearch p && supportsTools p
    then message "system" SYSTEM_INSTRUCTION :: messages else messages in
  let body := [
    ("messages", JArr messages);
    obj_string "model" (_model p)] in
  if _enableWebSearch p && supportsTools p
  then JObj (body ++ [("tools", function_tools)])%list
  else JObj body.

End OpenRouterProvider.

Module GroqProvider.

Definition _getEndpointUrl (p : LLMProvider) : string :=
  "https://api.groq.com/openai/v1/chat/completions".

Definition supportsTools (p : LLMProvider) : bool := true.

Definition _generateRequestBody (p : LLMProvider) (history : list Turn) : JValue :=
  let messages := map (fun msg =>
    message (user_or MessageRoles.ASSISTANT (role msg)) (content msg)) history in
  let messages :=
    if _enableWebSearch p && supportsTools p
    then message "system" SYSTEM_INSTRUCTION :: messages else messages in
  let body := [
    obj_string "model" (_model p);
    ("messages", JArr messages)] in
  if _enableWebSearch p && supportsTools p
  then JObj (body ++ [("tools", function_tools)])%list
  else JObj body.

End GroqProvider.

Module OllamaProvider.
Section WithPlatform.
Context {P : Platform}.

Definition _getEndpointUrl (p : LLMProvider) : string :=
  "http://127.0.0.1:11434/api/chat".

Definition toolModels : list string := [
  "llama3.1"; "llama3.2"; "llama-3.1"; "llama-3.2";
  "mistral"; "mixtral"; "ministral";
  "qwen2.5"; "qwen-2.5";
  "command-r"; "command-r-plus";
  "deepseek-r1"].

Definition supportsTools (p : LLMProvider) : bool :=
  let modelLower := JsString.toLowerCase (_model p) in
  existsb (fun m => JsString.includes modelLower m) toolModels.

(** [msg.content || ''] *)
Definition content_or_empty (c : string) : string :=
  if JsString.isEmpty c then "" else c.

Definition valid_role (msg : Turn) : bool :=
  String.eqb (role msg) MessageRoles.USER || String.eqb (role msg) MessageRoles.ASSISTANT.

(** The messages as (role, content) pairs, before they are put in the body. *)
Definition messages_of (p : LLMProvider) (history : list Turn) : list (string * string) :=
  let messages :=
    map (fun msg => (user_or "assistant" (role msg), content_or_empty (content msg)))
        (filter valid_role history) in
  let messages :=
    if _enableWebSearch p && supportsTools p
    then ("system", SYSTEM_INSTRUCTION) :: messages else messages in
  match rev messages with
  | [] => (messages ++ [("user", "")])%list
  | (r, _) :: _ =>
      if negb (String.eqb r "user") then (messages ++ [("user", "")])%list
      else messages
  end.

Definition _generateRequestBody (p : LLMProvider) (history : list Turn) : JValue :=
  let messages := map (fun m => message (fst m) (snd m)) (messages_of p history) in
  let body := [
    obj_string "model" (_model p);
    ("messages", JArr messages);
    ("stream", JBool false)] in
  if _enableWebSearch p && supportsTools p
  then JObj (body ++ [("tools", function_tools)])%list
  else JObj body.

Definition to_call (tc : JValue) : Completion ToolCall :=
  let* f := Js.get tc "function" in
  let* a := Js.get f "arguments" in
  let* args := (if Js.isString a then JSON_parse a else Return a) in
  let* n := Js.get f "name" in
  let* i := Js.get tc "id" in
  Return {| id := Js.or i (JStr "ollama_call"); name := n; input := args |}.

Definition _extractToolCalls (response : JValue) : Completion (option (list ToolCall)) :=
  let* m := Js.get response "message" in
  let* tcs := Js.opt_get m "tool_calls" in
  if Js.truthy tcs && Js.isArray tcs then
    let* l := ChatCompletions.array_map tcs to_call in Return (Some l)
  else Return None.

(** The answer after a closing think tag, when there is one. *)
Definition after_think (content : string) : string :=
  match JsString.indexOf content "</think>" with
  | Some thinkEndIndex =>
      let afterThink := JsString.trim (JsString.skip (thinkEndIndex + 8) content) in
      if JsString.isEmpty afterThink then content else afterThink
  | None => content
  end.

Definition _extractResponseText (response : JValue) : Completion JValue :=
  let* m := Js.get response "message" in
  let* c := (if Js.truthy m then Js.get m "content" else Return JUndefined) in
  match c with
  | JStr content => Return (JStr (after_think content))
  | _ =>
      let* r := Js.get response "response" in
      if Js.isString r then Return r else
      let* cs := Js.get response "choices" in
      let* c0 := Js.opt_first cs in
      let* msg := Js.opt_get c0 "message" in
      let* t := Js.opt_get msg "content" in
      if Js.truthy t then Return t else
      let* cps := Js.get response "completions" in
      let* cp := Js.opt_first cps in
      let* t' := Js.opt_get cp "text" in
      if Js.truthy t' then Return t' else Return (JStr "")
  end.

End WithPlatform.
End OllamaProvider.

(** *** Dispatch on the class of the adapter *)

Definition _getEndpointUrl (p : LLMProvider) : string :=
  match kind p with
  | Anthropic => AnthropicProvider._getEndpointUrl p
  | OpenAI => OpenAIProvider._getEndpointUrl p
  | Gemini => GeminiProvider._getEndpointUrl p
  | OpenRouter => OpenRouterProvider._getEndpointUrl p
  | Ollama => OllamaProvider._getEndpointUrl p
  | Groq => GroqProvider._getEndpointUrl p
  end.

Definition supportsTools (p : LLMProvider) : bool :=
  match kind p with
  | Anthropic => AnthropicProvider.supportsTools p
  | OpenAI => OpenAIProvider.supportsTools p
  | Gemini => GeminiProvider.supportsTools p
  | OpenRouter => OpenRouterProvider.supportsTools p
  | Ollama => OllamaProvider.supportsTools p
  | Groq => GroqProvider.supportsTools p
  end.

Definition _generateRequestBody (p : LLMProvider) (history : list Turn) : JValue :=
  match kind p with
  | Anthropic => AnthropicProvider._generateRequestBody p history
  | OpenAI => OpenAIProvider._generateRequestBody p history
  | Gemini => GeminiProvider._generateRequestBody p history
  | OpenRouter => OpenRouterProvider._generateRequestBody p history
  | Ollama => OllamaProvider._generateRequestBody p history
  | Groq => GroqProvider._generateRequestBody p history
  end.

Definition _extractToolCalls {P : Platform} (p : LLMProvider) (response : JValue)
  : Completion (option (list ToolCall)) :=
  match kind p with
  | Anthropic => AnthropicProvider._extractToolCalls response
  | Gemini => GeminiProvider._extractToolCalls response
  | Ollama => OllamaProvider._extractToolCalls response
  | OpenAI | OpenRouter | Groq => ChatCompletions._extractToolCalls response
  end.

Definition _extractResponseText (p : LLMProvider) (response : JValue) : Completion JValue :=
  match kind p with
  | Anthropic => AnthropicProvider._extractResponseText response
  | Gemini => GeminiProvider._extractResponseText response
  | Ollama => OllamaProvider._extractResponseText response
  | OpenAI | OpenRouter | Groq => ChatCompletions._extractResponseText response
  end.

Module LLMProviderFactory.

Definition kind_of (providerType : string) : ProviderKind :=
  if String.eqb providerType LLMProviders.ANTHROPIC then Anthropic
  else if String.eqb providerType LLMProviders.OPENAI then OpenAI
  else if String.eqb providerType LLMProviders.GEMINI then Gemini
  else if String.eqb providerType LLMProviders.OPENROUTER then OpenRouter
  else if String.eqb providerType LLMProviders.OLLAMA then Ollama
  else if String.eqb providerType LLMProviders.GROQ then Groq
  else Anthropic.

Definition createProvider (providerType apiKey model : string) (enableWebSearch : bool)
  : LLMProvider :=
  {| kind := kind_of providerType; _apiKey := apiKey; _model := model;
     _enableWebSearch := enableWebSearch |}.

End LLMProviderFactory.

(** *** [LLMProvider.sendRequest] *)

(** What the HTTP session hands to the completion handler. *)
Inductive TransportOutcome : Type :=
| NetworkFailure (networkError : Exn)   (* [send_and_read_finish] raises *)
| NoData                                (* it returns no bytes *)
| Received (statusCode : Z) (raw : string)
| HandlerFailure (error : Exn).         (* anything else raised while reading *)

Definition decimal (z : Z) : string := NilEmpty.string_of_int (Z.to_int z).

Section SendRequest.
Context {P : Platform}.

(** The arguments [callback] is called with: [inl errMsg] for
    [callback(new Error(errMsg), null)], [inr json] for [callback(null, json)]. *)
Definition sendRequest (p : LLMProvider) (history : list Turn) (o : TransportOutcome)
  : string + JValue :=
  let requestBody := _generateRequestBody p history in
  let url := _getEndpointUrl p in
  match o with
  | NetworkFailure networkError =>
      inl ("Network error: " ++ exn_message networkError ++ JsString.nl ++ "URL: " ++ url)
  | NoData =>
      inl ("No response data received" ++ JsString.nl ++ "URL: " ++ url)
  | Received statusCode raw =>
      if (statusCode =? 200)%Z then
        match JSON_parse (JStr raw) with
        | Throw parseError =>
            inl ("Failed to parse JSON: " ++ exn_message parseError ++ JsString.nl
                 ++ "URL: " ++ url ++ JsString.nl
                 ++ "Request: " ++ JSON_stringify requestBody ++ JsString.nl
                 ++ "Raw: " ++ raw)
        | Return json => inr json
        end
      else
        inl ("HTTP error " ++ decimal statusCode ++ JsString.nl
             ++ "URL: " ++ url ++ JsString.nl
             ++ "Request: " ++ JSON_stringify requestBody ++ JsString.nl
             ++ "Response: " ++ raw)
  | HandlerFailure error =>
      inl ("Exception in response handler: " ++ exn_message error ++ JsString.nl
           ++ "URL: " ++ url ++ JsString.nl
           ++ "Request: " ++ JSON_stringify requestBody)
  end.

End SendRequest.

(* ================================================================= *)
(** ** Errors handed to a completion callback *)

Inductive Failure : Type :=
| Error (message : string)   (* [new Error(message)], made by the extension *)
| Caught (e : Exn).          (* an exception of the platform, handed on *)

(** [error.message] *)
Definition failure_message (f : Failure) : string :=
  match f with
  | Error m => m
  | Caught e => exn_message e
  end.

(* ================================================================= *)
(** ** The YouTube transcript fetcher *)

Module YouTubeTranscriptFetcher.

(** The class [[a-zA-Z0-9_-]]. *)
Definition isIdChar (c : ascii) : bool :=
  JsString.isLower c || JsString.isUpper c || JsString.isDigit c
  || Ascii.eqb c "_" || Ascii.eqb c "-".

(** [([a-zA-Z0-9_-]{n})] at the head of [s]: the capture. *)
Fixpoint take_id (n : nat) (s : string) : option string :=
  match n with
  | 0 => Some EmptyString
  | S k =>
      match s with
      | String c r =>
          if isIdChar c then option_map (String c) (take_id k r) else None
      | EmptyString => None
      end
  end.

(** A literal prefix followed by the eleven-character capture. *)
Definition id_after (lit s : string) : option string :=
  if prefix lit s then take_id 11 (JsString.skip (String.length lit) s) else None.

Definition or_else {A} (a b : option A) : option A :=
  match a with Some _ => a | None => b end.

(** The first pattern tried at the head of [s], its alternatives in order. *)
Definition url_shape_here (s : string) : option string :=
  or_else (id_after "youtube.com/watch?v=" s)
    (or_else (id_after "youtu.be/" s) (id_after "youtube.com/embed/" s)).

(** The first pattern is not anchored: the leftmost position wins. *)
Fixpoint url_shape (s : string) : option string :=
  match url_shape_here s with
  | Some v => Some v
  | None =>
      match s with
      | EmptyString => None
      | String _ r => url_shape r
      end
  end.

(** The second pattern, anchored at both ends. *)
Definition bare_id (s : string) : option string :=
  match take_id 11 s with
  | Some v => if JsString.isEmpty (JsString.skip 11 s) then Some v else None
  | None => None
  end.

(** [None] is [null]. *)
Definition extractVideoId (url : string) : option string :=
  or_else (url_shape url) (bare_id url).

(** [line.replace(/<[^>]*>/g, '')].  [pending] holds the text read since
    an opening bracket that has not met its closing bracket yet. *)
Fixpoint strip_from (pending : option string) (s : string) : string :=
  match s with
  | EmptyString =>
      match pending with Some buf => buf | None => EmptyString end
  | String c r =>
      match pending with
      | None =>
          if Ascii.eqb c "<" then strip_from (Some (String c EmptyString)) r
          else String c (strip_from None r)
      | Some buf =>
          if Ascii.eqb c ">" then strip_from None r
          else strip_from (Some (buf ++ String c EmptyString)) r
      end
  end.

Definition strip_tags (s : string) : string := strip_from None s.

(** [/^\d+$/.test(line)] *)
Definition isNumeric (line : string) : bool :=
  negb (JsString.isEmpty line) && JsString.forallb_string JsString.isDigit line.

(** The condition under which a trimmed line is looked at. *)
Definition is_text_line (line : string) : bool :=
  negb (JsString.isEmpty line)
  && negb (JsString.includes line "-->")
  && negb (JsString.startsWith line "WEBVTT")
  && negb (isNumeric line).

Definition clean (line : string) : string := JsString.trim (strip_tags line).

(** [textLines.includes(cleaned)] *)
Definition mem (x : string) (l : list string) : bool := existsb (String.eqb x) l.

(** One turn of the loop over the lines. *)
Definition visit (textLines : list string) (raw : string) : list string :=
  let line := JsString.trim raw in
  if is_text_line line then
    let cleaned := clean line in
    if negb (JsString.isEmpty cleaned) && negb (mem cleaned textLines)
    then (textLines ++ [cleaned])%list
    else textLines
  else textLines.

Definition text_lines (vttContent : string) : list string :=
  fold_left visit (JsString.split (ascii_of_nat 10) vttContent) [].

Definition _parseVTT (vttContent : string) : string :=
  JsString.join " " (text_lines vttContent).

Definition formatTranscript (videoUrl transcript : string) : string :=
  let videoId := match extractVideoId videoUrl with Some v => v | None => "null" end in
  "[YOUTUBE VIDEO TRANSCRIPT]" ++ JsString.nl ++ JsString.nl
  ++ "Video: https://www.youtube.com/watch?v=" ++ videoId ++ JsString.nl ++ JsString.nl
  ++ "Transcript:" ++ JsString.nl ++ transcript ++ JsString.nl ++ JsString.nl
  ++ "[END TRANSCRIPT]" ++ JsString.nl ++ JsString.nl
  ++ "Please summarize the above video transcript.".

(** *** [fetchTranscript] and the host it runs on *)

Inductive ProcessOutcome : Type :=
| SpawnRaises (e : Exn)              (* [Gio.Subprocess.new] raises *)
| CommunicateRaises (e : Exn)        (* [communicate_utf8_finish] raises *)
| Exited (successful : bool) (stdout stderr : string).

Inductive FileOutcome : Type :=
| Missing                            (* [query_exists] is false *)
| LoadRaises (e : Exn)
| Loaded (success : bool) (contents : string).

Record Host : Type := {
  process : list string -> ProcessOutcome;
  file : string -> FileOutcome
}.

Inductive Effect : Type :=
| Spawn (argv : list string)
| QueryExists (path : string)
| LoadContents (path : string)
| Delete (path : string).

Definition argv_for (url : string) : list string :=
  ["yt-dlp"; "--skip-download"; "--write-auto-sub"; "--sub-lang"; "en";
   "--sub-format"; "vtt"; "--output"; "/tmp/%(id)s"; url].

(** The effects performed, in order, and the arguments of [callback]. *)
Definition fetchTranscript (host : Host) (videoUrl : string)
  : list Effect * (Failure + string) :=
  match extractVideoId videoUrl with
  | None => ([], inl (Error "Invalid YouTube URL"))
  | Some videoId =>
      if JsString.isEmpty videoId then ([], inl (Error "Invalid YouTube URL"))
      else
        let url := "https://www.youtube.com/watch?v=" ++ videoId in
        let spawn := Spawn (argv_for url) in
        match process host (argv_for url) with
        | SpawnRaises error => ([spawn], inl (Caught error))
        | CommunicateRaises error => ([spawn], inl (Caught error))
        | Exited false _ stderr => ([spawn], inl (Error ("yt-dlp failed: " ++ stderr)))
        | Exited true _ _ =>
            let subtitleFile := "/tmp/" ++ videoId ++ ".en.vtt" in
            match file host subtitleFile with
            | Missing =>
                ([spawn; QueryExists subtitleFile],
                 inl (Error "No subtitles available for this video"))
            | LoadRaises error =>
                ([spawn; QueryExists subtitleFile; LoadContents subtitleFile],
                 inl (Caught error))
            | Loaded false _ =>
                ([spawn; QueryExists subtitleFile; LoadContents subtitleFile],
                 inl (Error "Failed to read subtitle file"))
            | Loaded true contents =>
                ([spawn; QueryExists subtitleFile; LoadContents subtitleFile;
                  Delete subtitleFile],
                 inr (_parseVTT contents))
            end
        end
  end.

End YouTubeTranscriptFetcher.

(* ================================================================= *)
(** ** The SearXNG search client *)

Module SearXNGSearchClient.

Record SearchResult : Type := { title : JValue; snippet : JValue; url : JValue }.

(** The body of the loop for one entry of [data.results]. *)
Definition parse_entry (result : JValue) : Completion (option SearchResult) :=
  let* t := Js.get result "title" in
  if Js.truthy t then
    let* u := Js.get result "url" in
    if Js.truthy u then
      let* c := Js.get result "content" in
      Return (Some {| title := t; snippet := Js.or c (JStr ""); url := u |})
    else Return None
  else Return None.

(** The loop, over the entries it visits. *)
Fixpoint parse_entries (entries : list JValue) : Completion (list SearchResult) :=
  match entries with
  | [] => Return []
  | result :: rest =>
      let* r := parse_entry result in
      let* rs := parse_entries rest in
      Return (match r with Some x => x :: rs | None => rs end)
  end.

Definition _parseResults (data : JValue) : Completion (list SearchResult) :=
  let* rs := Js.get data "results" in
  match rs with
  | JArr entries => parse_entries (firstn (Nat.min (List.length entries) 5) entries)
  | _ => Return []
  end.

Section WithPlatform.
Context {P : Platform}.

Definition header (currentDate : string) (query : JValue) : string :=
  "[WEB SEARCH RESULTS - Current time: " ++ currentDate ++ "]" ++ JsString.nl ++ JsString.nl
  ++ "Search query: " ++ JsString.dquote ++ ToString query ++ JsString.dquote
  ++ JsString.nl ++ JsString.nl.

Definition NO_RESULTS_NOTE : string :=
  "No results found. Please answer based on your general knowledge and inform the user that you don't have access to current real-time data for this query.".

Definition FOOTER : string :=
  "[END SEARCH RESULTS]" ++ JsString.nl ++ JsString.nl
  ++ "Please use the above information to answer the user's question.".

(** What one turn of [results.forEach] appends. *)
Definition entry_text (index : nat) (result : SearchResult) : string :=
  decimal (Z.of_nat (index + 1)) ++ ". " ++ ToString (title result) ++ JsString.nl
  ++ "   Source: " ++ ToString (url result) ++ JsString.nl
  ++ (if Js.truthy (snippet result)
      then "   " ++ ToString (snippet result) ++ JsString.nl else "")
  ++ JsString.nl.

Fixpoint entries_text (index : nat) (results : list SearchResult) : string :=
  match results with
  | [] => ""
  | r :: rest => entry_text index r ++ entries_text (S index) rest
  end.

(** [currentDate] is what [new Date().toLocaleString(...)] gives. *)
Definition _formatResults (currentDate : string) (results : list SearchResult)
           (query : JValue) : string :=
  match results with
  | [] =>
      header currentDate query ++ NO_RESULTS_NOTE ++ JsString.nl ++ JsString.nl
      ++ "[END SEARCH RESULTS]"
  | _ => header currentDate query ++ entries_text 0 results ++ FOOTER
  end.

(** What the HTTP session hands to the completion handler of [search]. *)
Inductive SearchTransport : Type :=
| Finished (status : Z) (body : option string)   (* [None]: no bytes *)
| FinishRaises (status : Z) (e : Exn).

Definition status_of (t : SearchTransport) : Z :=
  match t with Finished s _ | FinishRaises s _ => s end.

Definition lift {A} (c : Completion A) : Failure + A :=
  match c with
  | Return a => inr a
  | Throw e => inl (Caught e)
  end.

(** The arguments [callback] is called with. *)
Definition search (currentDate : string) (query : JValue) (t : SearchTransport)
  : Failure + string :=
  if negb (status_of t =? 200)%Z then
    inl (Error ("Search failed: HTTP " ++ decimal (status_of t)
                ++ ". Check your SearXNG instance URL."))
  else
    match t with
    | FinishRaises _ e => inl (Caught e)
    | Finished _ None => inl (Error "No response from SearXNG instance")
    | Finished _ (Some jsonText) =>
        lift (let* data := JSON_parse (JStr jsonText) in
              let* _ := Js.get data "results" in
              let* results := _parseResults data in
              Return (_formatResults currentDate results query))
    end.

End WithPlatform.
End SearXNGSearchClient.

(* ================================================================= *)
(** ** The panel extension: the tool-call loop *)

(** What the settings manager answers when [_sendToLLM] asks. *)
Record Settings : Type := {
  getLLMProvider : string;
  getApiKey : string;
  getModel : string;
  getRequestTimeout : Z;
  getEnableWebSearch : bool;
  getSearXNGInstance : string
}.

(** A call on [this._chatDisplay]. *)
Inductive Shown : Type :=
| displayMessage (role text : string)
| displayError (text : string) (offerSettings : bool).

Record Garefowl : Type := {
  _settingsManager : Settings;
  stored : list Turn;             (* the argument of the last [setHistory] *)
  _history : list Turn;
  _toolCallDepth : nat;
  _maxToolCallDepth : nat;
  _chatDisplay : list Shown;      (* the calls so far, oldest first *)
  reactive : bool;                (* [_chatInput] accepts input *)
  thinking : bool                 (* the thinking timer runs *)
}.

(** The asynchronous operation a handler leaves behind. *)
Inductive InFlight : Type :=
| LLMRequest (llmProvider : LLMProvider) (history : list Turn)
| WebSearch (llmProvider : LLMProvider) (query : JValue)
| TranscriptFetch (llmProvider : LLMProvider) (videoUrl : string)
| Nothing
| Uncaught (e : Exn).   (* the handler raised; [sendRequest] logs and drops it *)

(** The two literals that open the messages of [_handleToolCalls]; they hold
    characters above 255 and are written as the bytes the source file has. *)
Definition SEARCH_ICON : string :=
  string_of_list_ascii (map ascii_of_nat [195; 176; 197; 184; 226; 128; 157]).
Definition VIDEO_ICON : string :=
  string_of_list_ascii (map ascii_of_nat [195; 176; 197; 184; 226; 128; 156; 194; 186]).

Definition NO_RESPONSE : string := "[No response from LLM - this may be a parsing error]".
Definition LIMIT_REACHED : string :=
  "Web search limit reached. Please try rephrasing your question.".

Module Extension.

Definition show (x : Shown) (g : Garefowl) : Garefowl :=
  {| _settingsManager := _settingsManager g; stored := stored g;
     _history := _history g; _toolCallDepth := _toolCallDepth g;
     _maxToolCallDepth := _maxToolCallDepth g;
     _chatDisplay := (_chatDisplay g ++ [x])%list;
     reactive := reactive g; thinking := thinking g |}.

Definition push (t : Turn) (g : Garefowl) : Garefowl :=
  {| _settingsManager := _settingsManager g; stored := stored g;
     _history := (_history g ++ [t])%list; _toolCallDepth := _toolCallDepth g;
     _maxToolCallDepth := _maxToolCallDepth g;
     _chatDisplay := _chatDisplay g;
     reactive := reactive g; thinking := thinking g |}.

(** [this._settingsManager.setHistory(this._history)] *)
Definition setHistory (g : Garefowl) : Garefowl :=
  {| _settingsManager := _settingsManager g; stored := _history g;
     _history := _history g; _toolCallDepth := _toolCallDepth g;
     _maxToolCallDepth := _maxToolCallDepth g;
     _chatDisplay := _chatDisplay g;
     reactive := reactive g; thinking := thinking g |}.

Definition set_depth (d : nat) (g : Garefowl) : Garefowl :=
  {| _settingsManager := _settingsManager g; stored := stored g;
     _history := _history g; _toolCallDepth := d;
     _maxToolCallDepth := _maxToolCallDepth g;
     _chatDisplay := _chatDisplay g;
     reactive := reactive g; thinking := thinking g |}.

Definition set_reactive (b : bool) (g : Garefowl) : Garefowl :=
  {| _settingsManager := _settingsManager g; stored := stored g;
     _history := _history g; _toolCallDepth := _toolCallDepth g;
     _maxToolCallDepth := _maxToolCallDepth g;
     _chatDisplay := _chatDisplay g;
     reactive := b; thinking := thinking g |}.

Definition set_thinking (b : bool) (g : Garefowl) : Garefowl :=
  {| _settingsManager := _settingsManager g; stored := stored g;
     _history := _history g; _toolCallDepth := _toolCallDepth g;
     _maxToolCallDepth := _maxToolCallDepth g;
     _chatDisplay := _chatDisplay g;
     reactive := reactive g; thinking := b |}.

Definition _stopThinkingTimer : Garefowl -> Garefowl := set_thinking false.
Definition _startThinkingTimer : Garefowl -> Garefowl := set_thinking true.

(** The three lines that hand the input box back to the user. *)
Definition ready : Garefowl -> Garefowl := set_reactive true.

Definition _sendToLLM (g : Garefowl) : Garefowl * InFlight :=
  let s := _settingsManager g in
  let llmProvider :=
    LLMProviderFactory.createProvider
      (getLLMProvider s) (getApiKey s) (getModel s) (getEnableWebSearch s) in
  (g, LLMRequest llmProvider (_history g)).

Definition _handleUserInput (g : Garefowl) (input : string) : Garefowl * InFlight :=
  if JsString.isEmpty input || JsString.startsWith input "Thinking " then (g, Nothing)
  else
    let g := show (displayMessage MessageRoles.USER input) g in
    let g := push {| role := MessageRoles.USER; content := input |} g in
    let g := set_depth 0 g in
    let '(g, op) := _sendToLLM g in
    (_startThinkingTimer (set_reactive false g), op).

(** The turn the search callback injects. *)
Definition search_turn (currentDate results : string) : Turn :=
  {| role := MessageRoles.USER;
     content :=
       "[WEB SEARCH RESULTS - Current time: " ++ currentDate ++ "]"
       ++ JsString.nl ++ JsString.nl ++ results ++ JsString.nl ++ JsString.nl
       ++ "[END SEARCH RESULTS]" ++ JsString.nl ++ JsString.nl
       ++ "Using ONLY the search results above (which are current as of "
       ++ currentDate
       ++ "), please answer the original question. Do not use your training data. If the search results don't contain the answer, say so." |}.

(** The callback given to [searchClient.search]. *)
Definition search_done (g : Garefowl) (currentDate : string) (r : Failure + string)
  : Garefowl * InFlight :=
  match r with
  | inl error =>
      let g := show (displayError ("Web search failed: " ++ failure_message error) false) g in
      let g := _stopThinkingTimer g in
      let g := set_depth 0 g in
      (ready g, Nothing)
  | inr results =>
      let g := push (search_turn currentDate results) g in
      let g := setHistory g in
      _sendToLLM g
  end.

Definition transcript_turn (videoUrl transcript : string) : Turn :=
  {| role := MessageRoles.USER;
     content := YouTubeTranscriptFetcher.formatTranscript videoUrl transcript |}.

(** The callback given to [YouTubeTranscriptFetcher.fetchTranscript]. *)
Definition transcript_done (g : Garefowl) (videoUrl : string) (r : Failure + string)
  : Garefowl * InFlight :=
  match r with
  | inl error =>
      let g := show (displayError
                       ("YouTube transcript fetch failed: " ++ failure_message error) false) g in
      let g := _stopThinkingTimer g in
      let g := set_depth 0 g in
      (ready g, Nothing)
  | inr transcript =>
      let g := push (transcript_turn videoUrl transcript) g in
      let g := setHistory g in
      _sendToLLM g
  end.

Section WithPlatform.
Context {P : Platform}.

Definition _handleToolCalls (g : Garefowl) (toolCalls : list ToolCall)
           (llmProvider : LLMProvider) : Garefowl * InFlight :=
  if (_maxToolCallDepth g <=? _toolCallDepth g)%nat then
    let g := show (displayError LIMIT_REACHED false) g in
    let g := _stopThinkingTimer g in
    (ready g, Nothing)
  else
    let g := set_depth (S (_toolCallDepth g)) g in
    match toolCalls with
    | [] => (g, Uncaught (TypeError "cannot read property name"))
    | toolCall :: _ =>
        if Js.strictEqStr (name toolCall) "web_search" then
          match Js.get (input toolCall) "query" with
          | Throw e => (g, Uncaught e)
          | Return query =>
              let g := show (displayMessage MessageRoles.ASSISTANT
                               (SEARCH_ICON ++ " Searching the web for: " ++ JsString.dquote
                                ++ ToString query ++ JsString.dquote ++ "...")) g in
              (g, WebSearch llmProvider query)
          end
        else if Js.strictEqStr (name toolCall) "youtube_summary" then
          match Js.get (input toolCall) "video_url" with
          | Throw e => (g, Uncaught e)
          | Return videoUrl =>
              let g := show (displayMessage MessageRoles.ASSISTANT
                               (VIDEO_ICON ++ " Fetching YouTube video transcript...")) g in
              match videoUrl with
              | JStr u => (g, TranscriptFetch llmProvider u)
              | _ => (g, Uncaught (TypeError "url.match is not a function"))
              end
          end
        else
          let g := show (displayError
                           ("Unknown tool requested: " ++ ToString (name toolCall)) false) g in
          let g := _stopThinkingTimer g in
          let g := set_depth 0 g in
          (ready g, Nothing)
    end.

(** [toolCalls && toolCalls.length > 0] *)
Definition some_calls (toolCalls : option (list ToolCall)) : bool :=
  match toolCalls with
  | Some (_ :: _) => true
  | _ => false
  end.

(** The part of the callback after the tool calls were declined. *)
Definition text_response (g : Garefowl) (llmProvider : LLMProvider) (response : JValue)
  : Garefowl * InFlight :=
  let textResponse :=
    match response with
    | JStr _ => response
    | JArr _ | JObj _ =>
        try_catch (_extractResponseText llmProvider response) (fun _ => JStr "")
    | _ => JStr ""
    end in
  (* the empty case logs [JSON.stringify(response).substring(0, 1000)] *)
  let placeholder : Completion string :=
    match response with
    | JUndefined => Throw (TypeError "cannot read property substring")
    | _ => Return NO_RESPONSE
    end in
  let checked : Completion string :=
    match textResponse with
    | JStr s => if JsString.isEmpty (JsString.trim s) then placeholder else Return s
    | other =>
        if Js.truthy other then Throw (TypeError "textResponse.trim is not a function")
        else placeholder
    end in
  match checked with
  | Throw e => (g, Uncaught e)
  | Return text =>
      let g := show (displayMessage MessageRoles.ASSISTANT text) g in
      let g := push {| role := MessageRoles.ASSISTANT; content := text |} g in
      let g := setHistory g in
      (ready g, Nothing)
  end.

(** The callback once the tool calls were extracted. *)
Definition dispatch (g : Garefowl) (llmProvider : LLMProvider)
           (toolCalls : option (list ToolCall)) (response : JValue)
  : Garefowl * InFlight :=
  if some_calls toolCalls && _enableWebSearch llmProvider
     && (_toolCallDepth g <? _maxToolCallDepth g)%nat
  then _handleToolCalls g (match toolCalls with Some l => l | None => [] end) llmProvider
  else text_response g llmProvider response.

(** The callback [_sendToLLM] gives to [sendRequest]; [r] holds its arguments. *)
Definition callback (g : Garefowl) (llmProvider : LLMProvider) (r : string + JValue)
  : Garefowl * InFlight :=
  let g := _stopThinkingTimer g in
  match r with
  | inl error =>
      let g := show (displayError ("Error: " ++ error) true) g in
      (ready g, Nothing)
  | inr response =>
      let toolCalls :=
        try_catch (_extractToolCalls llmProvider response) (fun _ => None) in
      dispatch g llmProvider toolCalls response
  end.

(** *** The loop, run against a world *)

(** What the outside answers to the [n]-th provider request and to the
    [n]-th tool call. *)
Record World : Type := {
  llm : nat -> TransportOutcome;
  web : nat -> SearXNGSearchClient.SearchTransport;
  host : nat -> YouTubeTranscriptFetcher.Host;
  clock : nat -> string * string   (* the time [search] and its callback read *)
}.

Record Session : Type := {
  app : Garefowl;
  flight : InFlight;
  requests : nat;     (* provider requests answered so far *)
  tools : nat         (* tool calls answered so far *)
}.

Definition step (w : World) (s : Session) : Session :=
  match flight s with
  | LLMRequest p history =>
      let '(g, f) := callback (app s) p (sendRequest p history (llm w (requests s))) in
      {| app := g; flight := f; requests := S (requests s); tools := tools s |}
  | WebSearch p query =>
      let '(t1, t2) := clock w (tools s) in
      let r := SearXNGSearchClient.search t1 query (web w (tools s)) in
      let '(g, f) := search_done (app s) t2 r in
      {| app := g; flight := f; requests := requests s; tools := S (tools s) |}
  | TranscriptFetch p videoUrl =>
      let r := snd (YouTubeTranscriptFetcher.fetchTranscript (host w (tools s)) videoUrl) in
      let '(g, f) := transcript_done (app s) videoUrl r in
      {| app := g; flight := f; requests := requests s; tools := S (tools s) |}
  | Nothing | Uncaught _ => s
  end.

Fixpoint run (n : nat) (w : World) (s : Session) : Session :=
  match n with
  | 0 => s
  | S k => run k w (step w s)
  end.

(** A user turn starts a session. *)
Definition start (g : Garefowl) (input : string) : Session :=
  let '(g, f) := _handleUserInput g input in
  {| app := g; flight := f; requests := 0; tools := 0 |}.

End WithPlatform.
End Extension.

(* ================================================================= *)
(** * The vocabulary of the statements *)

Module TranscriptSpec.
Import JsString YouTubeTranscriptFetcher.

(** The lines that survive the filters, cleaned, in the order of the file. *)
Definition candidates (vttContent : string) : list string :=
  filter (fun c => negb (isEmpty c))
    (map clean (filter is_text_line (map trim (split (ascii_of_nat 10) vttContent)))).

(** Keep a line only where it occurs for the first time. *)
Fixpoint first_occurrences_from (seen l : list string) : list string :=
  match l with
  | [] => []
  | x :: r =>
      if mem x seen then first_occurrences_from seen r
      else x :: first_occurrences_from (seen ++ [x]) r
  end.

Definition first_occurrences : list string -> list string := first_occurrences_from [].

(** Following the words of the specification: only a line equal to the
    line just before it is dropped. *)
Fixpoint collapse_runs (l : list string) : list string :=
  match l with
  | [] => []
  | x :: r =>
      match r with
      | y :: _ => if String.eqb x y then collapse_runs r else x :: collapse_runs r
      | [] => [x]
      end
  end.

Definition parseVTT_as_stated (vttContent : string) : string :=
  join " " (collapse_runs (candidates vttContent)).

Fixpoint has_char (c : ascii) (s : string) : bool :=
  match s with
  | EmptyString => false
  | String d r => Ascii.eqb d c || has_char c r
  end.

(** An opening bracket with a closing bracket somewhere after it. *)
Fixpoint has_tag (s : string) : bool :=
  match s with
  | EmptyString => false
  | String c r => (Ascii.eqb c "<" && has_char ">" r) || has_tag r
  end.

(** A video identifier as the patterns capture it. *)
Definition well_formed_id (v : string) : Prop :=
  String.length v = 11 /\ forallb_string isIdChar v = true.

(** The trace starts the extraction subprocess. *)
Definition spawns (trace : list Effect) : bool :=
  existsb (fun e => match e with Spawn _ => true | _ => false end) trace.

End TranscriptSpec.

Module SearchSpec.
Import SearXNGSearchClient.





End SearchSpec.

Module BodySpec.

(** Where a request body keeps the conversation. *)
Definition list_key (k : ProviderKind) : string :=
  match k with Gemini => "contents" | _ => "messages" end.

(** The text of one listed entry: [content], or [parts[0].text] for Gemini. *)
Definition text_of (k : ProviderKind) (m : JValue) : option string :=
  match k with
  | Gemini =>
      match field m "parts" with
      | JArr [part] => match field part "text" with JStr t => Some t | _ => None end
      | _ => None
      end
  | _ => match field m "content" with JStr c => Some c | _ => None end
  end.

Definition entry_of (k : ProviderKind) (m : JValue) : option (string * string) :=
  match field m "role", text_of k m with
  | JStr r, Some t => Some (r, t)
  | _, _ => None
  end.

Fixpoint entries_of (k : ProviderKind) (l : list JValue) : option (list (string * string)) :=
  match l with
  | [] => Some []
  | m :: r =>
      match entry_of k m, entries_of k r with
      | Some e, Some es => Some (e :: es)
      | _, _ => None
      end
  end.

(** The (role, text) pairs a body lists, when every entry has the shape
    the provider's schema asks for. *)
Definition listed (k : ProviderKind) (body : JValue) : option (list (string * string)) :=
  match field body (list_key k) with
  | JArr l => entries_of k l
  | _ => None
  end.

(** The list is empty, or the body has none. *)
Definition empty_or_absent (k : ProviderKind) (body : JValue) : bool :=
  match field body (list_key k) with
  | JArr [] | JUndefined => true
  | _ => false
  end.

(** The vocabulary of roles, in the words of the specification. *)
Definition vocabulary (k : ProviderKind) (r : string) : string :=
  if String.eqb r MessageRoles.USER then "user"
  else match k with Gemini => "model" | _ => "assistant" end.

Definition canonical (t : Turn) : Prop :=
  role t = MessageRoles.USER \/ role t = MessageRoles.ASSISTANT.

(** An entry lists a turn: its role is the turn's, in the provider's
    vocabulary, and its text ends with the turn's content. *)
Definition carries (k : ProviderKind) (e : string * string) (t : Turn) : Prop :=
  fst e = vocabulary k (role t) /\ exists pre, snd e = pre ++ content t.

Definition verbatim (k : ProviderKind) (t : Turn) : string * string :=
  (vocabulary k (role t), content t).

Definition system_entry : string * string := ("system", SYSTEM_INSTRUCTION).
Definition dummy_entry : string * string := ("user", "").

(** How the entries of a body relate to the history it was built from. *)
Definition shape (k : ProviderKind) (history : list Turn)
           (pre mid post : list (string * string)) : Prop :=
  Forall2 (carries k) mid history
  /\ (k <> Gemini -> mid = map (verbatim k) history)
  /\ (pre = [] \/ pre = [system_entry])
  /\ (post = [] \/ post = [dummy_entry])
  /\ (forall h t, history = (h ++ [t])%list -> role t = MessageRoles.USER -> post = []).

End BodySpec.

Module LoopSpec.
Section WithPlatform.
Context {P : Platform}.
Import Extension.

(** The adapter [_sendToLLM] builds from the settings. *)
Definition provider_of (s : Settings) : LLMProvider :=
  LLMProviderFactory.createProvider
    (getLLMProvider s) (getApiKey s) (getModel s) (getEnableWebSearch s).




Definition valid_input (input : string) : Prop :=
  JsString.isEmpty input = false /\ JsString.startsWith input "Thinking " = false.

Definition user_turn (input : string) : Turn :=
  {| role := MessageRoles.USER; content := input |}.

Definition assistant_turn (text : string) : Turn :=
  {| role := MessageRoles.ASSISTANT; content := text |}.


(** What a state looks like after a reply was taken as the final text. *)
Definition concluded (g g' : Garefowl) (f : InFlight) : Prop :=
  _toolCallDepth g' = _toolCallDepth g
  /\ ((exists e, f = Uncaught e)
      /\ _history g' = _history g /\ _chatDisplay g' = _chatDisplay g
      \/ exists text,
          f = Nothing
          /\ _history g' = (_history g ++ [assistant_turn text])%list
          /\ stored g' = _history g'
          /\ _chatDisplay g'
             = (_chatDisplay g ++ [displayMessage MessageRoles.ASSISTANT text])%list
          /\ reactive g' = true).

(** A session waiting for the reply to a request made of the whole history. *)
Definition awaiting (g : Garefowl) (p : LLMProvider) (n m : nat) : Session :=
  {| app := g; flight := LLMRequest p (_history g); requests := n; tools := m |}.

End WithPlatform.
End LoopSpec.

(* ================================================================= *)
(** ** A platform for the worked examples *)

Module Fixture.

Definition quoted (s : string) : string := JsString.dquote ++ s ++ JsString.dquote.

(** A reply of the Anthropic API that asks for a web search. *)
Definition tool_use_text : string :=
  "{" ++ quoted "content" ++ ":[{" ++ quoted "type" ++ ":" ++ quoted "tool_use" ++ ","
  ++ quoted "id" ++ ":" ++ quoted "toolu_1" ++ "," ++ quoted "name" ++ ":"
  ++ quoted "web_search" ++ "," ++ quoted "input" ++ ":{" ++ quoted "query" ++ ":"
  ++ quoted "weather today" ++ "}}]}".

Definition tool_use_json : JValue :=
  JObj [("content", JArr [JObj [
    obj_string "type" "tool_use";
    obj_string "id" "toolu_1";
    obj_string "name" "web_search";
    ("input", JObj [obj_string "query" "weather today"])]])].

(** A reply that asks for a tool the extension does not have. *)
Definition delete_database_text : string :=
  "{" ++ quoted "content" ++ ":[{" ++ quoted "type" ++ ":" ++ quoted "tool_use" ++ ","
  ++ quoted "id" ++ ":" ++ quoted "toolu_2" ++ "," ++ quoted "name" ++ ":"
  ++ quoted "delete_database" ++ "," ++ quoted "input" ++ ":{}}]}".

Definition delete_database_json : JValue :=
  JObj [("content", JArr [JObj [
    obj_string "type" "tool_use";
    obj_string "id" "toolu_2";
    obj_string "name" "delete_database";
    ("input", JObj [])]])].

(** A reply of SearXNG with one result. *)
Definition one_result_text : string :=
  "{" ++ quoted "results" ++ ":[{" ++ quoted "title" ++ ":" ++ quoted "Forecast" ++ ","
  ++ quoted "url" ++ ":" ++ quoted "https://example.org/w" ++ "," ++ quoted "content"
  ++ ":" ++ quoted "Sunny" ++ "}]}".

Definition one_result_json : JValue :=
  JObj [("results", JArr [JObj [
    obj_string "title" "Forecast";
    obj_string "url" "https://example.org/w";
    obj_string "content" "Sunny"]])].

Definition known_texts : list (string * JValue) := [
  (tool_use_text, tool_use_json);
  (delete_database_text, delete_database_json);
  (one_result_text, one_result_json);
  ("{}", JObj []);
  ("[]", JArr []);
  ("null", JNull)].

Fixpoint find_text (s : string) (table : list (string * JValue)) : Completion JValue :=
  match table with
  | [] => Throw (SyntaxError "unexpected token")
  | (k, v) :: r => if String.eqb k s then Return v else find_text s r
  end.

(** It agrees with the builtins on the texts and values the examples use:
    [JSON.parse] knows the texts of [known_texts], the two printers print
    strings and the constants. *)
Definition platform : Platform := {|
  JSON_parse := fun v =>
    match v with
    | JStr s => find_text s known_texts
    | JNull => Return JNull
    | JBool b => Return (JBool b)
    | _ => Throw (SyntaxError "unexpected token")
    end;
  JSON_stringify := fun v =>
    match v with
    | JStr s => quoted s
    | JBool true => "true"
    | JBool false => "false"
    | JArr [] => "[]"
    | JObj [] => "{}"
    | _ => "null"
    end;
  ToString := fun v =>
    match v with
    | JStr s => s
    | JUndefined => "undefined"
    | JNull => "null"
    | JBool true => "true"
    | JBool false => "false"
    | JArr [] => ""
    | _ => "[object Object]"
    end
|}.

Import Extension.

Definition settings (enableWebSearch : bool) : Settings :=
  {| getLLMProvider := LLMProviders.ANTHROPIC; getApiKey := "sk-test";
     getModel := "claude-3-5-sonnet-latest"; getRequestTimeout := 300;
     getEnableWebSearch := enableWebSearch;
     getSearXNGInstance := "http://localhost:8080" |}.

(** The extension as [_init] leaves it, with an empty stored history. *)
Definition fresh (enableWebSearch : bool) : Garefowl :=
  {| _settingsManager := settings enableWebSearch; stored := []; _history := [];
     _toolCallDepth := 0; _maxToolCallDepth := 3; _chatDisplay := [];
     reactive := true; thinking := false |}.

Definition anthropic (enableWebSearch : bool) : LLMProvider :=
  LoopSpec.provider_of (settings enableWebSearch).

Definition no_host : YouTubeTranscriptFetcher.Host :=
  {| YouTubeTranscriptFetcher.process :=
       fun _ => YouTubeTranscriptFetcher.SpawnRaises (HostError "yt-dlp not found");
     YouTubeTranscriptFetcher.file := fun _ => YouTubeTranscriptFetcher.Missing |}.

(** Every reply asks for a web search and every search finds one result. *)
Definition searching_world : World :=
  {| llm := fun _ => Received 200 tool_use_text;
     web := fun _ => SearXNGSearchClient.Finished 200 (Some one_result_text);
     host := fun _ => no_host;
     clock := fun _ => ("Monday, November 2, 2026 at 08:00 PM UTC",
                        "Monday, November 2, 2026 at 08:00 PM UTC") |}.




End Fixture.

(* ================================================================= *)
(** ** Vocabulary of the further properties *)

Module LoopMeasure.
Import Extension.

(** Nothing is in flight any more. *)
Definition settled (s : Session) : Prop :=
  flight s = Nothing \/ exists e, flight s = Uncaught e.

(** A bound on the steps a session can still take. *)
Definition budget (s : Session) : nat :=
  let left := _maxToolCallDepth (app s) - _toolCallDepth (app s) in
  match flight s with
  | LLMRequest _ _ => 2 * left + 1
  | WebSearch _ _ | TranscriptFetch _ _ => 2 * left + 2
  | Nothing | Uncaught _ => 0
  end.

(** A bound on the tool calls a session can still make. *)
Definition allowance (s : Session) : nat :=
  let left := _maxToolCallDepth (app s) - _toolCallDepth (app s) in
  match flight s with
  | LLMRequest _ _ => left
  | WebSearch _ _ | TranscriptFetch _ _ => left + 1
  | Nothing | Uncaught _ => 0
  end.

(** A bound on the provider requests a session can still have answered. *)
Definition request_allowance (s : Session) : nat :=
  let left := _maxToolCallDepth (app s) - _toolCallDepth (app s) in
  match flight s with
  | LLMRequest _ _ | WebSearch _ _ | TranscriptFetch _ _ => left + 1
  | Nothing | Uncaught _ => 0
  end.

(** The request in flight was made by [_sendToLLM]: it carries the whole
    history, which ends with a user turn. *)
Definition well_sent (s : Session) : Prop :=
  match flight s with
  | LLMRequest p h =>
      p = LoopSpec.provider_of (_settingsManager (app s))
      /\ h = _history (app s)
      /\ exists h' t, h = (h' ++ [t])%list /\ role t = MessageRoles.USER
  | _ => True
  end.

(** The handler ended the exchange by appending an assistant turn. *)
Definition answered (g g' : Garefowl) (text : string) : Prop :=
  _history g' = (_history g ++ [LoopSpec.assistant_turn text])%list
  /\ stored g' = _history g'
  /\ _chatDisplay g' = (_chatDisplay g ++ [displayMessage MessageRoles.ASSISTANT text])%list
  /\ _toolCallDepth g' = _toolCallDepth g
  /\ reactive g' = true /\ thinking g' = false.

(** The handler ended the exchange by displaying an error. *)
Definition failed (g g' : Garefowl) (text : string) (offerSettings : bool) : Prop :=
  _history g' = _history g
  /\ stored g' = stored g
  /\ _chatDisplay g' = (_chatDisplay g ++ [displayError text offerSettings])%list
  /\ reactive g' = true /\ thinking g' = false.


(** What any handler does to the state, whatever it is called with. *)
Record moved (g g' : Garefowl) : Prop := {
  moved_max : _maxToolCallDepth g' = _maxToolCallDepth g;
  moved_settings : _settingsManager g' = _settingsManager g;
  moved_history : exists added,
      _history g' = (_history g ++ added)%list /\ Forall BodySpec.canonical added;
  moved_display : exists shown,
      _chatDisplay g' = (_chatDisplay g ++ shown)%list
      /\ ~ In (displayError LIMIT_REACHED false) shown
}.

End LoopMeasure.

Module AdapterSpec.

(** The same adapter with another key. *)
Definition with_key (key : string) (p : LLMProvider) : LLMProvider :=
  {| kind := kind p; _apiKey := key; _model := _model p;
     _enableWebSearch := _enableWebSearch p |}.

(** The same adapter with the tools switched off. *)
Definition without_tools (p : LLMProvider) : LLMProvider :=
  {| kind := kind p; _apiKey := _apiKey p; _model := _model p;
     _enableWebSearch := false |}.

Definition with_model (model : string) (p : LLMProvider) : LLMProvider :=
  {| kind := kind p; _apiKey := _apiKey p; _model := model;
     _enableWebSearch := _enableWebSearch p |}.

(** The identifier the settings use for an adapter. *)
Definition identifier (k : ProviderKind) : string :=
  match k with
  | Anthropic => LLMProviders.ANTHROPIC
  | OpenAI => LLMProviders.OPENAI
  | Gemini => LLMProviders.GEMINI
  | OpenRouter => LLMProviders.OPENROUTER
  | Ollama => LLMProviders.OLLAMA
  | Groq => LLMProviders.GROQ
  end.

(** A block of an Anthropic reply that is a [tool_use] block. *)
Definition is_tool_use (block : JValue) : bool :=
  Js.strictEqStr (field block "type") "tool_use".

(** A block of an Anthropic reply that is a text block with some text. *)
Definition is_text (block : JValue) : bool :=
  Js.strictEqStr (field block "type") "text" && Js.truthy (field block "text").

Definition call_of_block (block : JValue) : ToolCall :=
  {| id := field block "id"; name := field block "name"; input := field block "input" |}.

(** The adapters that speak the chat-completions dialect. *)
Definition chat_completions (k : ProviderKind) : bool :=
  match k with OpenAI | OpenRouter | Groq => true | _ => false end.

(** [tc.function.name] of an element of [tool_calls]. *)
Definition function_name (tc : JValue) : JValue := field (field tc "function") "name".

(** The handler left no operation behind. *)
Definition idle (f : InFlight) : Prop := f = Nothing \/ exists e, f = Uncaught e.

End AdapterSpec.

Module FetchSpec.
Import JsString YouTubeTranscriptFetcher.

(** The page address [fetchTranscript] builds for an identifier. *)
Definition watch_url (videoId : string) : string :=
  "https://www.youtube.com/watch?v=" ++ videoId.

(** The subtitle file [fetchTranscript] looks for. *)
Definition subtitle_file (videoId : string) : string :=
  "/tmp/" ++ videoId ++ ".en.vtt".

(** An effect that names nothing but the video [videoId]. *)
Definition names_only (videoId : string) (e : Effect) : Prop :=
  match e with
  | Spawn argv => argv = argv_for (watch_url videoId)
  | QueryExists path | LoadContents path | Delete path => path = subtitle_file videoId
  end.

Definition deletes (trace : list Effect) : bool :=
  existsb (fun e => match e with Delete _ => true | _ => false end) trace.

(** The three literals of the first pattern. *)
Definition url_prefixes : list string :=
  ["youtube.com/watch?v="; "youtu.be/"; "youtube.com/embed/"].

(** A host on which the download fails. *)
Definition failing_host : Host :=
  {| process := fun _ => Exited false "" "ERROR: unavailable";
     file := fun _ => Missing |}.

End FetchSpec.

Module SearchMoreSpec.
Import JsString SearXNGSearchClient.

Section WithPlatform.
Context {P : Platform}.




End WithPlatform.
End SearchMoreSpec.

(* ================================================================= *)
(** ** Further examples *)

Module Samples.
Import Extension.

(** A reply of SearXNG whose only entry is [null]. *)
Definition null_entry_text : string := "{" ++ Fixture.quoted "results" ++ ":[null]}".

Definition null_entry_json : JValue := JObj [("results", JArr [JNull])].

(** A reply of the Anthropic API whose text block holds a number, before
    the request for a search. *)
Definition number_text_text : string :=
  "{" ++ Fixture.quoted "content" ++ ":[{" ++ Fixture.quoted "type" ++ ":"
  ++ Fixture.quoted "text" ++ "," ++ Fixture.quoted "text" ++ ":5},{"
  ++ Fixture.quoted "type" ++ ":" ++ Fixture.quoted "tool_use" ++ ","
  ++ Fixture.quoted "id" ++ ":" ++ Fixture.quoted "toolu_1" ++ ","
  ++ Fixture.quoted "name" ++ ":" ++ Fixture.quoted "web_search" ++ ","
  ++ Fixture.quoted "input" ++ ":{" ++ Fixture.quoted "query" ++ ":"
  ++ Fixture.quoted "weather today" ++ "}}]}".

Definition number_text_json : JValue :=
  JObj [("content", JArr [
    JObj [obj_string "type" "text"; ("text", Js.num 5)];
    JObj [obj_string "type" "tool_use"; obj_string "id" "toolu_1";
          obj_string "name" "web_search";
          ("input", JObj [obj_string "query" "weather today"])]])].

(** The platform of the examples, knowing two more texts. *)
Definition platform : Platform := {|
  JSON_parse := fun v =>
    match v with
    | JStr s =>
        Fixture.find_text s ((null_entry_text, null_entry_json)
                             :: (number_text_text, number_text_json)
                             :: Fixture.known_texts)
    | other => @JSON_parse Fixture.platform other
    end;
  JSON_stringify := @JSON_stringify Fixture.platform;
  ToString := @ToString Fixture.platform
|}.

Definition openai : LLMProvider :=
  {| kind := OpenAI; _apiKey := "sk-test"; _model := "gpt-4o"; _enableWebSearch := true |}.

Definition ollama : LLMProvider :=
  {| kind := Ollama; _apiKey := ""; _model := "llama3.1"; _enableWebSearch := true |}.

(** An Anthropic reply: some text, then the request for a search. *)
Definition text_block : JValue :=
  JObj [obj_string "type" "text"; obj_string "text" "Let me look."].

Definition tool_use_block : JValue :=
  JObj [obj_string "type" "tool_use"; obj_string "id" "toolu_1";
        obj_string "name" "web_search";
        ("input", JObj [obj_string "query" "weather today"])].

Definition mixed_reply : list (string * JValue) :=
  [("content", JArr [text_block; tool_use_block])].

(** A reply in the chat-completions dialect. *)
Definition chat_call (id name arguments : string) : JValue :=
  JObj [obj_string "id" id;
        ("function", JObj [obj_string "name" name; obj_string "arguments" arguments])].

Definition chat_reply (elements : list JValue) : JValue :=
  JObj [("choices", JArr [JObj [("message", JObj [("tool_calls", JArr elements)])]])].

(** Two calls in one reply. *)
Definition two_calls : list JValue :=
  [chat_call "call_1" "web_search" "{}"; chat_call "call_2" "youtube_summary" "{}"].

(** The arguments of the second call are cut short. *)
Definition broken_calls : list JValue :=
  [chat_call "call_1" "web_search" "{}"; chat_call "call_2" "web_search" "{query"].

Definition entry (title : string) : JValue :=
  JObj [obj_string "title" title; obj_string "url" "https://example.org/"].

Definition five_entries : list JValue := map entry ["a"; "b"; "c"; "d"; "e"].

(** A host on which the download succeeds and leaves a subtitle file. *)
Definition subtitled_host : YouTubeTranscriptFetcher.Host :=
  {| YouTubeTranscriptFetcher.process :=
       fun _ => YouTubeTranscriptFetcher.Exited true "" "";
     YouTubeTranscriptFetcher.file :=
       fun _ => YouTubeTranscriptFetcher.Loaded true
                  ("WEBVTT" ++ JsString.nl ++ JsString.nl
                   ++ "00:00:01.000 --> 00:00:02.000" ++ JsString.nl ++ "hello") |}.

Definition subtitled_world : World :=
  {| llm := fun _ => NoData;
     web := fun _ => SearXNGSearchClient.Finished 200 None;
     host := fun _ => subtitled_host;
     clock := fun _ => ("Monday", "Monday") |}.

(** A session waiting for the transcript of a video. *)
Definition fetching : Session :=
  {| app := Fixture.fresh true;
     flight := TranscriptFetch (Fixture.anthropic true) "https://youtu.be/dQw4w9WgXcQ";
     requests := 1; tools := 0 |}.

(** Every reply holds the number and asks for a web search; every search
    finds one result. *)
Definition number_world : World :=
  {| llm := fun _ => Received 200 number_text_text;
     web := fun _ => SearXNGSearchClient.Finished 200 (Some Fixture.one_result_text);
     host := fun _ => Fixture.no_host;
     clock := fun _ => ("Monday", "Monday") |}.

(** No request reaches the provider. *)
Definition offline_world : World :=
  {| llm := fun _ => NetworkFailure (HostError "offline");
     web := fun _ => SearXNGSearchClient.Finished 200 (Some Fixture.one_result_text);
     host := fun _ => Fixture.no_host;
     clock := fun _ => ("Monday", "Monday") |}.

End Samples.

(* ================================================================= *)
(** * Properties *)

(** ** Strings *)

Module JsStringFacts.
Import JsString.

Lemma append_assoc (a b c : string) : (a ++ b) ++ c = a ++ (b ++ c).
Proof. induction a as [|x a IH]; simpl; [reflexivity | now rewrite IH]. Qed.

Lemma append_empty_r (a : string) : a ++ "" = a.
Proof. induction a as [|x a IH]; simpl; [reflexivity | now rewrite IH]. Qed.

Lemma prefix_append (p t : string) : prefix p (p ++ t) = true.
Proof.
  induction p as [|x p IH]; simpl.
  - now destruct t.
  - destruct (ascii_dec x x) as [_|n]; [exact IH | now elim n].
Qed.

Lemma prefix_split (p s : string) : prefix p s = true -> exists t, s = p ++ t.
Proof.
  revert s; induction p as [|x p IH]; intros s H.
  - exists s; reflexivity.
  - destruct s as [|y s]; simpl in H; [discriminate|].
    destruct (ascii_dec x y) as [->|_]; [|discriminate].
    destruct (IH _ H) as [t ->]. now exists t.
Qed.

Lemma includes_eq (s sub : string) :
  includes s sub =
  if prefix sub s then true
  else match s with EmptyString => false | String _ r => includes r sub end.
Proof. destruct s; reflexivity. Qed.

Lemma includes_spec (s sub : string) :
  includes s sub = true <-> exists a b, s = a ++ sub ++ b.
Proof.
  split.
  - induction s as [|x s IH]; rewrite includes_eq;
      destruct (prefix sub _) eqn:E; intros H.
    + destruct (prefix_split _ _ E) as [t Ht]. now exists "", t.
    + discriminate.
    + destruct (prefix_split _ _ E) as [t Ht]. now exists "", t.
    + destruct (IH H) as (a & b & ->). now exists (String x a), b.
  - intros (a & b & ->). induction a as [|x a IH]; rewrite includes_eq.
    + change ("" ++ sub ++ b) with (sub ++ b). now rewrite prefix_append.
    + destruct (prefix sub _); [reflexivity | exact IH].
Qed.

Lemma includes_middle (a sub b : string) : includes (a ++ sub ++ b) sub = true.
Proof. apply includes_spec. now exists a, b. Qed.

Lemma includes_end (a sub : string) : includes (a ++ sub) sub = true.
Proof. apply includes_spec. exists a, "". now rewrite append_empty_r. Qed.

Lemma includes_trans (s t u : string) :
  includes s t = true -> includes t u = true -> includes s u = true.
Proof.
  intros H1 H2. apply includes_spec in H1 as (a & b & ->).
  apply includes_spec in H2 as (c & d & ->). apply includes_spec.
  exists (a ++ c), (d ++ b). now rewrite !append_assoc.
Qed.

Lemma includes_append_r (s t u : string) :
  includes s u = true -> includes (s ++ t) u = true.
Proof.
  intros H. apply includes_spec in H as (a & b & ->). apply includes_spec.
  exists a, (b ++ t). now rewrite !append_assoc.
Qed.

Lemma includes_append_l (s t u : string) :
  includes t u = true -> includes (s ++ t) u = true.
Proof.
  intros H. apply includes_spec in H as (a & b & ->). apply includes_spec.
  exists (s ++ a), b. now rewrite !append_assoc.
Qed.

Lemma includes_prefix (t sub : string) : prefix sub t = true -> includes t sub = true.
Proof. intros H. rewrite includes_eq. now rewrite H. Qed.

End JsStringFacts.

(** ** The transport: what an error message discloses *)

Section TransportFacts.
Context {P : Platform}.
Import JsString JsStringFacts.

Ltac find_part :=
  first [ apply includes_middle | apply includes_end
        | apply includes_append_r; apply includes_prefix; reflexivity
        | apply includes_append_l; find_part ].

Lemma sendRequest_carries_url (p : LLMProvider) (history : list Turn)
      (o : TransportOutcome) :
  match sendRequest p history o with
  | inl msg => includes msg (_getEndpointUrl p) = true
  | inr _ => True
  end.
Proof.
  unfold sendRequest.
  destruct o as [e| |status raw|e].
  - find_part.
  - find_part.
  - destruct (status =? 200)%Z.
    + destruct (JSON_parse (JStr raw)); [exact I|].
      find_part.
    + find_part.
  - find_part.
Qed.

Lemma sendRequest_carries_body (p : LLMProvider) (history : list Turn)
      (o : TransportOutcome) :
  match o, sendRequest p history o with
  | (Received _ _ | HandlerFailure _), inl msg =>
      includes msg (JSON_stringify (_generateRequestBody p history)) = true
  | _, _ => True
  end.
Proof.
  unfold sendRequest.
  destruct o as [e| |status raw|e]; trivial.
  - destruct (status =? 200)%Z.
    + destruct (JSON_parse (JStr raw)); [exact I|].
      find_part.
    + find_part.
  - find_part.
Qed.

Lemma sendRequest_key_independent (k : ProviderKind) (key1 key2 model : string)
      (ws : bool) (history : list Turn) (o : TransportOutcome) :
  k <> Gemini ->
  sendRequest {| kind := k; _apiKey := key1; _model := model; _enableWebSearch := ws |}
              history o
  = sendRequest {| kind := k; _apiKey := key2; _model := model; _enableWebSearch := ws |}
                history o.
Proof.
  intros H. destruct k; try reflexivity. now elim H.
Qed.

(** For whatever key, model, history and outcome of the transport: when the
    Gemini adapter reports an error, the message contains the API key,
    because the key is part of the endpoint URL and every message quotes
    the URL. *)
Lemma gemini_errors_carry_the_key
      (apiKey model : string) (ws : bool) (history : list Turn) (o : TransportOutcome) :
  match sendRequest {| kind := Gemini; _apiKey := apiKey; _model := model;
                       _enableWebSearch := ws |} history o with
  | inl msg => includes msg apiKey = true
  | inr _ => True
  end.
Proof.
  pose proof (sendRequest_carries_url
                {| kind := Gemini; _apiKey := apiKey; _model := model;
                   _enableWebSearch := ws |} history o) as E.
  destruct (sendRequest _ history o) as [msg|json]; [|exact I].
  eapply includes_trans; [exact E|].
  unfold _getEndpointUrl, GeminiProvider._getEndpointUrl, kind, _model, _apiKey.
  rewrite <- !append_assoc. apply includes_end.
Qed.

End TransportFacts.

(** C3 (the code departs from the claim).  The claim: no error value of the
    transport contains the API key.  With the Gemini adapter, the key
    [AIza-SECRET] and a connection failure, the message handed to the callback
    quotes the endpoint URL and with it the key; the same holds for every
    key and every kind of failure. *)
Theorem gemini_error_discloses_api_key :
  sendRequest (P := Fixture.platform)
    {| kind := Gemini; _apiKey := "AIza-SECRET"; _model := "gemini-pro";
       _enableWebSearch := false |}
    [] (NetworkFailure (HostError "connection refused"))
  = inl ("Network error: connection refused" ++ JsString.nl
         ++ "URL: https://generativelanguage.googleapis.com/v1beta/models/gemini-pro:generateContent?key=AIza-SECRET")
  /\ forall (P : Platform) (apiKey model : string) (ws : bool) (history : list Turn)
            (o : TransportOutcome),
      match sendRequest {| kind := Gemini; _apiKey := apiKey; _model := model;
                           _enableWebSearch := ws |} history o with
      | inl msg => JsString.includes msg apiKey = true
      | inr _ => True
      end.
Proof.
  split; [vm_compute; reflexivity|]. intros P. apply gemini_errors_carry_the_key.
Qed.

(** ** Reading the answer out of a reply *)

(** C2 (the code departs from the claim).  The claim: [_extractResponseText]
    returns the empty string when the expected fields are missing and never
    raises.  On the reply [{}] the Anthropic and Ollama adapters do return
    the empty string, but the OpenAI, OpenRouter, Groq and Gemini adapters
    raise a TypeError. *)
Theorem extractResponseText_raises_on_missing_fields (p : LLMProvider) :
  match kind p with
  | Anthropic | Ollama => _extractResponseText p (JObj []) = Return (JStr "")
  | OpenAI | OpenRouter | Groq | Gemini =>
      _extractResponseText p (JObj []) = Throw (TypeError "cannot read property 0")
  end.
Proof.
  unfold _extractResponseText. destruct (kind p); reflexivity.
Qed.

(** A reply whose [content] is [null], as the OpenAI API sends along with
    tool calls, gives [null], which is not a string. *)
Lemma extractResponseText_may_return_null (p : LLMProvider) :
  kind p = OpenAI ->
  _extractResponseText p
    (JObj [("choices", JArr [JObj [("message", JObj [("content", JNull)])]])])
  = Return JNull.
Proof. unfold _extractResponseText. intros ->. reflexivity. Qed.

(** ** The video identifier and the gate of [fetchTranscript] *)

Module YouTubeFacts.
Import JsString YouTubeTranscriptFetcher TranscriptSpec.


Lemma take_id_sound (n : nat) (s v : string) :
  take_id n s = Some v -> String.length v = n /\ forallb_string isIdChar v = true.
Proof.
  revert s v; induction n as [|n IH]; intros s v; simpl.
  - intros [= <-]. now split.
  - destruct s as [|c r]; [discriminate|].
    destruct (isIdChar c) eqn:Hc; [|discriminate].
    destruct (take_id n r) as [w|] eqn:E; [|discriminate].
    intros [= <-]. destruct (IH _ _ E) as [Hl Hf]. simpl. now rewrite Hl, Hc, Hf.
Qed.

Lemma id_after_sound (lit s v : string) : id_after lit s = Some v -> well_formed_id v.
Proof.
  unfold id_after. destruct (prefix lit s); [|discriminate]. apply take_id_sound.
Qed.

Lemma url_shape_here_sound (s v : string) : url_shape_here s = Some v -> well_formed_id v.
Proof.
  unfold url_shape_here, or_else.
  destruct (id_after "youtube.com/watch?v=" s) eqn:E1.
  - intros [= <-]. eapply id_after_sound; eassumption.
  - destruct (id_after "youtu.be/" s) eqn:E2.
    + intros [= <-]. eapply id_after_sound; eassumption.
    + apply id_after_sound.
Qed.

Lemma url_shape_sound (s v : string) : url_shape s = Some v -> well_formed_id v.
Proof.
  induction s as [|c r IH].
  - intros H. vm_compute in H. discriminate H.
  - change (url_shape (String c r))
      with (match url_shape_here (String c r) with
            | Some v => Some v | None => url_shape r end).
    destruct (url_shape_here (String c r)) eqn:E; [|exact IH].
    intros [= <-]. eapply url_shape_here_sound; eassumption.
Qed.

Lemma bare_id_sound (s v : string) : bare_id s = Some v -> well_formed_id v.
Proof.
  unfold bare_id. destruct (take_id 11 s) as [w|] eqn:E; [|discriminate].
  destruct (isEmpty _); [|discriminate]. intros [= <-]. eapply take_id_sound; eassumption.
Qed.

Lemma extractVideoId_sound (url v : string) :
  extractVideoId url = Some v -> well_formed_id v.
Proof.
  unfold extractVideoId, or_else. destruct (url_shape url) eqn:E.
  - intros [= <-]. eapply url_shape_sound; eassumption.
  - apply bare_id_sound.
Qed.


(** C10.  For every input string, [extractVideoId] gives [null] or a string
    of exactly eleven characters, each a letter, a digit, an underscore or a
    hyphen.  When it gives [null], [fetchTranscript] starts no subprocess and
    calls back with the error [Invalid YouTube URL]; when it gives an
    identifier, [fetchTranscript] starts the subprocess and whatever error it
    may report is not that one. *)
Theorem extractVideoId_shape_and_gate (videoUrl : string) (host : Host) :
  match extractVideoId videoUrl with
  | None =>
      fetchTranscript host videoUrl = ([], inl (Error "Invalid YouTube URL"))
  | Some v =>
      String.length v = 11 /\ forallb_string isIdChar v = true
      /\ spawns (fst (fetchTranscript host videoUrl)) = true
      /\ snd (fetchTranscript host videoUrl) <> inl (Error "Invalid YouTube URL")
  end.
Proof.
  unfold fetchTranscript.
  destruct (extractVideoId videoUrl) as [v|] eqn:E; [|reflexivity].
  destruct (extractVideoId_sound _ E) as [Hl Hf].
  split; [exact Hl|]. split; [exact Hf|].
  destruct v as [|c v]; [discriminate|].
  cbv beta iota delta [isEmpty].
  destruct (process host _) as [e|e|[|] out err].
  - split; [reflexivity|discriminate].
  - split; [reflexivity|discriminate].
  - destruct (file host _) as [|e|[|] contents]; (split; [reflexivity|discriminate]).
  - split; [reflexivity|discriminate].
Qed.

End YouTubeFacts.

(** ** The subtitle parser *)

Module TranscriptFacts.
Import JsString JsStringFacts YouTubeTranscriptFetcher TranscriptSpec.

Lemma mem_In (x : string) (l : list string) : mem x l = true <-> In x l.
Proof.
  unfold mem. rewrite existsb_exists. split.
  - intros (y & Hy & E). apply String.eqb_eq in E. now subst.
  - intros H. exists x. split; [exact H | apply String.eqb_refl].
Qed.

Lemma visit_skip (acc : list string) (raw : string) :
  is_text_line (trim raw) = false -> visit acc raw = acc.
Proof. unfold visit. now intros ->. Qed.

Lemma fold_visit (lines acc : list string) :
  fold_left visit lines acc
  = (acc ++ first_occurrences_from acc
       (filter (fun c => negb (isEmpty c))
          (map clean (filter is_text_line (map trim lines)))))%list.
Proof.
  revert acc; induction lines as [|raw lines IH]; intros acc; simpl.
  - now rewrite app_nil_r.
  - rewrite IH. unfold visit.
    destruct (is_text_line (trim raw)); simpl; [|reflexivity].
    destruct (isEmpty (clean (trim raw))); simpl; [reflexivity|].
    destruct (mem (clean (trim raw)) acc); simpl; [reflexivity|].
    now rewrite <- app_assoc.
Qed.

Lemma text_lines_spec (vttContent : string) :
  text_lines vttContent = first_occurrences (candidates vttContent).
Proof. unfold text_lines. now rewrite fold_visit. Qed.

Lemma first_occurrences_from_In (seen l : list string) (x : string) :
  In x (first_occurrences_from seen l) <-> In x l /\ ~ In x seen.
Proof.
  revert seen; induction l as [|y l IH]; intros seen; simpl.
  - tauto.
  - destruct (mem y seen) eqn:E.
    + apply mem_In in E. rewrite IH. split.
      * tauto.
      * intros [[->|H] Hn]; [contradiction | tauto].
    + assert (~ In y seen) as Hy.
      { intros H. apply mem_In in H. congruence. }
      simpl. rewrite IH, in_app_iff. simpl. split.
      * intros [->|[H Hn]]; [tauto|]. split; [tauto|]. intros H'; apply Hn; tauto.
      * intros [[->|H] Hn]; [tauto|].
        destruct (string_dec y x) as [->|Hne]; [tauto|]. right. split; [exact H|].
        intros [H'|[H'|[]]]; [contradiction | contradiction].
Qed.

Lemma first_occurrences_from_NoDup (seen l : list string) :
  NoDup (first_occurrences_from seen l).
Proof.
  revert seen; induction l as [|y l IH]; intros seen; simpl.
  - constructor.
  - destruct (mem y seen); [apply IH|]. constructor; [|apply IH].
    rewrite first_occurrences_from_In, in_app_iff. simpl. tauto.
Qed.

(** *** Stripping the tags *)

Lemma has_char_append (c : ascii) (a b : string) :
  has_char c (a ++ b) = has_char c a || has_char c b.
Proof. induction a as [|d a IH]; simpl; [reflexivity | now rewrite IH, orb_assoc]. Qed.

Lemma has_tag_split (w t : string) :
  has_char "<" w = false -> has_char ">" t = false -> has_tag (w ++ t) = false.
Proof.
  intros Hw Ht. induction w as [|c w IH]; simpl.
  - clear Hw. induction t as [|c t IH]; simpl; [reflexivity|].
    simpl in Ht. apply orb_false_iff in Ht as [_ Ht]. rewrite Ht, andb_false_r. auto.
  - simpl in Hw. apply orb_false_iff in Hw as [Hc Hw]. rewrite Hc. simpl. auto.
Qed.

Lemma strip_from_shape (s : string) (pending : option string) :
  match pending with
  | Some buf => has_char ">" buf = false
  | None => True
  end ->
  exists w t, strip_from pending s = w ++ t
              /\ has_char "<" w = false /\ has_char ">" t = false.
Proof.
  revert pending; induction s as [|c r IH]; intros pending Hp; simpl.
  - destruct pending as [buf|].
    + now exists "", buf.
    + now exists "", "".
  - destruct pending as [buf|].
    + destruct (Ascii.eqb c ">") eqn:E.
      * now apply IH.
      * apply IH. rewrite has_char_append. simpl. now rewrite Hp, E.
    + destruct (Ascii.eqb c "<") eqn:E.
      * apply Ascii.eqb_eq in E. subst c. now apply IH.
      * destruct (IH None I) as (w & t & -> & Hw & Ht).
        exists (String c w), t. simpl. now rewrite E, Hw.
Qed.

Lemma strip_tags_no_tag (s : string) : has_tag (strip_tags s) = false.
Proof.
  destruct (@strip_from_shape s None I) as (w & t & E & Hw & Ht).
  unfold strip_tags. rewrite E. now apply has_tag_split.
Qed.

Lemma has_tag_suffix (a b : string) : has_tag (a ++ b) = false -> has_tag b = false.
Proof.
  induction a as [|c a IH]; simpl; [easy|].
  intros H. apply orb_false_iff in H as [_ H]. auto.
Qed.

Lemma has_tag_prefix (a b : string) : has_tag (a ++ b) = false -> has_tag a = false.
Proof.
  induction a as [|c a IH]; simpl; [easy|].
  intros H. apply orb_false_iff in H as [H1 H2]. rewrite (IH H2), orb_false_r.
  destruct (Ascii.eqb c "<"); [|reflexivity]. simpl in *.
  rewrite has_char_append in H1. now apply orb_false_iff in H1 as [-> _].
Qed.

Lemma trimStart_suffix (s : string) : exists a, s = a ++ trimStart s.
Proof.
  induction s as [|c r [a IH]]; simpl.
  - now exists "".
  - destruct (isWhiteSpace c).
    + exists (String c a). simpl. now rewrite <- IH.
    + now exists "".
Qed.

Lemma trimEnd_prefix (s : string) : exists b, s = trimEnd s ++ b.
Proof.
  induction s as [|c r [b IH]]; simpl.
  - now exists "".
  - destruct (trimEnd r) as [|d r'] eqn:E.
    + destruct (isWhiteSpace c).
      * now exists (String c r).
      * exists r. reflexivity.
    + exists b. simpl in *. congruence.
Qed.

Lemma trim_no_tag (s : string) : has_tag s = false -> has_tag (trim s) = false.
Proof.
  intros H. unfold trim.
  destruct (trimStart_suffix s) as [a Ha].
  destruct (trimEnd_prefix (trimStart s)) as [b Hb].
  rewrite Ha in H. apply has_tag_suffix in H. rewrite Hb in H.
  now apply has_tag_prefix in H.
Qed.

Lemma clean_no_tag (line : string) : has_tag (clean line) = false.
Proof. apply trim_no_tag, strip_tags_no_tag. Qed.

Lemma candidates_In (vttContent x : string) :
  In x (candidates vttContent) <->
  x <> "" /\
  exists raw, In raw (split (ascii_of_nat 10) vttContent)
              /\ is_text_line (trim raw) = true /\ x = clean (trim raw).
Proof.
  unfold candidates. rewrite filter_In, in_map_iff. split.
  - intros [(line & <- & Hl) Hne]. apply filter_In in Hl as [Hl Ht].
    apply in_map_iff in Hl as (raw & <- & Hr). split.
    + intros E. rewrite E in Hne. discriminate.
    + now exists raw.
  - intros (Hne & raw & Hr & Ht & ->). split.
    + exists (trim raw). split; [reflexivity|]. apply filter_In. split; [|exact Ht].
      apply in_map_iff. now exists raw.
    + destruct (clean (trim raw)); [now elim Hne | reflexivity].
Qed.

(** C8, amended.  For every VTT text: the parser trims each line; it drops
    the empty lines, the lines that contain [-->], the lines that start with
    [WEBVTT] and the lines made of digits only; it strips the tags from the
    other lines and trims them again; of the lines that are not empty it
    keeps each one where it first occurs, whether or not the repetition is
    next to it, and joins them with single spaces.  No line of the result
    holds a tag and no line occurs twice. *)
Theorem parseVTT_keeps_first_occurrences (vttContent : string) :
  _parseVTT vttContent = join " " (first_occurrences (candidates vttContent))
  /\ NoDup (first_occurrences (candidates vttContent))
  /\ (forall x, In x (first_occurrences (candidates vttContent)) <->
        x <> "" /\
        exists raw, In raw (split (ascii_of_nat 10) vttContent)
                    /\ x = trim (strip_tags (trim raw))
                    /\ trim raw <> ""
                    /\ includes (trim raw) "-->" = false
                    /\ startsWith (trim raw) "WEBVTT" = false
                    /\ isNumeric (trim raw) = false)
  /\ (forall x, In x (first_occurrences (candidates vttContent)) -> has_tag x = false).
Proof.
  split; [|split; [|split]].
  - unfold _parseVTT. now rewrite text_lines_spec.
  - apply first_occurrences_from_NoDup.
  - intros x. unfold first_occurrences. rewrite first_occurrences_from_In, candidates_In.
    unfold is_text_line, clean. split.
    + intros [(Hne & raw & Hr & Ht & ->) _]. split; [exact Hne|]. exists raw.
      apply andb_true_iff in Ht as [Ht H4]. apply andb_true_iff in Ht as [Ht H3].
      apply andb_true_iff in Ht as [H1 H2].
      apply negb_true_iff in H1, H2, H3, H4.
      repeat split; try assumption. intros E. rewrite E in H1. discriminate.
    + intros (Hne & raw & Hr & -> & H1 & H2 & H3 & H4). split; [|easy].
      split; [exact Hne|]. exists raw. repeat split; try assumption.
      rewrite H2, H3, H4. destruct (trim raw); [now elim H1 | reflexivity].
  - intros x Hx. unfold first_occurrences in Hx.
    apply first_occurrences_from_In in Hx as [Hx _].
    apply candidates_In in Hx as (_ & raw & _ & _ & ->). apply clean_no_tag.
Qed.

Example parseVTT_sample :
  _parseVTT ("WEBVTT" ++ nl ++ nl ++ "1" ++ nl ++ "00:00:01.000 --> 00:00:02.000" ++ nl
             ++ "<c>hello</c> world" ++ nl ++ nl ++ "2" ++ nl
             ++ "00:00:02.000 --> 00:00:03.000" ++ nl ++ "hello world" ++ nl ++ "again")
  = "hello world again".
Proof. reflexivity. Qed.

(** C8, as stated, fails.  Read as the specification words it, only a line
    equal to the line just before it would go: [yes], [no], [yes] would
    give [yes no yes].  The parser gives [yes no]. *)
Lemma parseVTT_drops_a_later_repetition :
  _parseVTT ("yes" ++ nl ++ "no" ++ nl ++ "yes") = "yes no"
  /\ parseVTT_as_stated ("yes" ++ nl ++ "no" ++ nl ++ "yes") = "yes no yes"
  /\ _parseVTT ("yes" ++ nl ++ "no" ++ nl ++ "yes")
     <> parseVTT_as_stated ("yes" ++ nl ++ "no" ++ nl ++ "yes").
Proof. repeat split; try reflexivity. vm_compute. discriminate. Qed.

End TranscriptFacts.

(** ** The search client *)

Module SearchFacts.
Import JsString JsStringFacts SearXNGSearchClient SearchSpec.





Lemma parse_entry_total (e : JValue) :
  Js.isNullish e = false -> exists r, parse_entry e = Return r.
Proof.
  intros H. unfold parse_entry.
  assert (forall p, exists v, Js.get e p = Return v) as G.
  { intros p. destruct e; try discriminate; simpl; eauto;
      destruct (String.eqb p "length"); eauto. }
  destruct (G "title") as [t ->]. destruct (G "url") as [u ->].
  destruct (G "content") as [c ->]. simpl.
  destruct (Js.truthy t); [|eauto]. destruct (Js.truthy u); eauto.
Qed.

Lemma parse_entries_total (es : list JValue) :
  Forall (fun e => Js.isNullish e = false) es -> exists rs, parse_entries es = Return rs.
Proof.
  induction 1 as [|e es He _ [rs IH]]; simpl; [eauto|].
  destruct (parse_entry_total _ He) as [r ->]. rewrite IH. simpl. eauto.
Qed.


Section WithPlatform.
Context {P : Platform}.

Ltac find_part :=
  first [ apply includes_middle | apply includes_end
        | apply includes_append_r; apply includes_prefix; reflexivity
        | apply includes_append_l; find_part ].

Lemma get_field (e : JValue) (p : string) :
  Js.isNullish e = false -> String.eqb p "length" = false ->
  Js.get e p = Return (field e p).
Proof. intros H Hp. destruct e; try discriminate; simpl; now rewrite ?Hp. Qed.



Lemma firstn_min (A : Type) (n : nat) (l : list A) :
  firstn (Nat.min (List.length l) n) l = firstn n l.
Proof.
  revert n; induction l as [|x l IH]; intros [|n]; simpl; try reflexivity.
  now rewrite IH.
Qed.













End WithPlatform.



End SearchFacts.

(** ** The request bodies *)

Module BodyFacts.
Import BodySpec.

Lemma entries_of_messages (k : ProviderKind) (l : list (string * string)) :
  k <> Gemini ->
  entries_of k (map (fun m => message (fst m) (snd m)) l) = Some l.
Proof.
  intros Hk. induction l as [|[r c] l IH]; simpl; [reflexivity|].
  rewrite IH. destruct k; try reflexivity. now elim Hk.
Qed.

Lemma entries_of_contents (l : list (string * string)) :
  entries_of Gemini (map (fun e => GeminiProvider.content_entry (fst e) (snd e)) l) = Some l.
Proof. induction l as [|[r c] l IH]; simpl; [reflexivity | now rewrite IH]. Qed.

Lemma user_or_vocabulary (k : ProviderKind) (r : string) :
  user_or (match k with Gemini => "model" | _ => "assistant" end) r = vocabulary k r.
Proof. unfold user_or, vocabulary. now destruct (String.eqb r MessageRoles.USER). Qed.

Lemma canonical_vocabulary (k : ProviderKind) (t : Turn) :
  k <> Gemini -> canonical t -> role t = vocabulary k (role t).
Proof.
  intros Hk [E|E]; rewrite E; unfold vocabulary; simpl; [reflexivity|].
  destruct k; try reflexivity. now elim Hk.
Qed.

Lemma carries_verbatim (k : ProviderKind) (t : Turn) : carries k (verbatim k t) t.
Proof. split; [reflexivity | now exists ""]. Qed.

Lemma Forall2_verbatim (k : ProviderKind) (history : list Turn) :
  Forall2 (carries k) (map (verbatim k) history) history.
Proof. induction history; simpl; constructor; [apply carries_verbatim | assumption]. Qed.

Lemma content_or_empty_id (c : string) : OllamaProvider.content_or_empty c = c.
Proof. now destruct c. Qed.

Lemma filter_canonical (history : list Turn) :
  Forall canonical history -> filter OllamaProvider.valid_role history = history.
Proof.
  induction 1 as [|t l Ht _ IH]; simpl; [reflexivity|].
  unfold OllamaProvider.valid_role at 1. rewrite IH.
  now destruct Ht as [-> | ->].
Qed.

Lemma map_canonical (k : ProviderKind) (history : list Turn) :
  k <> Gemini -> Forall canonical history ->
  map (fun t => (role t, content t)) history = map (verbatim k) history.
Proof.
  intros Hk. induction 1 as [|t l Ht _ IH]; simpl; [reflexivity|].
  rewrite IH. unfold verbatim at 2. now rewrite <- canonical_vocabulary.
Qed.

Lemma gemini_carries (pre : string) (history : list Turn) :
  Forall2 (carries Gemini)
    (match map (fun msg => (user_or "model" (role msg), content msg)) history with
     | (r, text) :: rest => (r, pre ++ text) :: rest
     | [] => map (fun msg => (user_or "model" (role msg), content msg)) history
     end) history.
Proof.
  destruct history as [|t l]; simpl; constructor.
  - split; [reflexivity | now exists pre].
  - apply (Forall2_verbatim Gemini).
Qed.


Lemma shape_plain (k : ProviderKind) (history : list Turn) (ws : bool) :
  shape k history (if ws then [system_entry] else []) (map (verbatim k) history) [].
Proof.
  repeat split; auto using Forall2_verbatim. destruct ws; auto.
Qed.

Lemma ollama_messages (p : LLMProvider) (history : list Turn) :
  Forall canonical history ->
  exists pre post,
    OllamaProvider.messages_of p history
    = (pre ++ map (verbatim Ollama) history ++ post)%list
    /\ (pre = [] \/ pre = [system_entry])
    /\ (post = [] \/ post = [dummy_entry])
    /\ (forall h t, history = (h ++ [t])%list -> role t = MessageRoles.USER -> post = []).
Proof.
  intros Hc.
  set (pre := if _enableWebSearch p && OllamaProvider.supportsTools p
              then [system_entry] else []).
  set (mid := map (verbatim Ollama) history).
  set (post := match rev (pre ++ mid)%list with
               | [] => [dummy_entry]
               | (r, _) :: _ => if negb (String.eqb r "user") then [dummy_entry] else []
               end).
  exists pre, post. repeat split.
  - unfold OllamaProvider.messages_of. rewrite filter_canonical by assumption.
    assert (map (fun msg => (user_or "assistant" (role msg),
                             OllamaProvider.content_or_empty (content msg))) history
            = mid) as ->.
    { unfold mid. apply map_ext. intros t. now rewrite content_or_empty_id. }
    assert ((if _enableWebSearch p && OllamaProvider.supportsTools p
             then ("system", SYSTEM_INSTRUCTION) :: mid else mid) = (pre ++ mid)%list) as ->.
    { unfold pre. now destruct (_enableWebSearch p && _). }
    rewrite app_assoc. unfold post.
    destruct (rev (pre ++ mid)%list) as [|[r c] l]; [reflexivity|].
    destruct (negb _); [reflexivity | now rewrite app_nil_r].
  - unfold pre. destruct (_ && _); auto.
  - unfold post. destruct (rev _) as [|[r c] l]; auto. destruct (negb _); auto.
  - intros h t -> Ht. unfold post, mid.
    rewrite map_app, app_assoc, rev_app_distr. simpl.
    unfold vocabulary. rewrite Ht. reflexivity.
Qed.

(** C6.  For every adapter and every history of user and assistant turns,
    the body lists the turns of the history, all of them and in their order,
    between at most one system entry before and at most one empty user entry
    after (the latter only for Ollama, and never when the history ends with
    a user turn).  Each entry has the role of its turn in the vocabulary of
    the adapter ([model] for an assistant turn with Gemini, [assistant] with
    the others) and the content of its turn, word for word except that
    Gemini, with the tools on, puts its instruction before the content of
    the first turn. *)
Theorem request_body_lists_history (p : LLMProvider) (history : list Turn) :
  Forall canonical history ->
  exists pre mid post,
    listed (kind p) (_generateRequestBody p history) = Some (pre ++ mid ++ post)%list
    /\ Forall2 (carries (kind p)) mid history
    /\ (kind p <> Gemini -> mid = map (verbatim (kind p)) history)
    /\ (pre = [] \/ pre = [system_entry])
    /\ (post = [] \/ post = [dummy_entry])
    /\ (forall h t, history = (h ++ [t])%list -> role t = MessageRoles.USER -> post = []).
Proof.
  intros Hc. unfold _generateRequestBody. destruct (kind p) eqn:K.
  - (* Anthropic *)
    exists [], (map (verbatim Anthropic) history), [].
    split; [|apply (shape_plain Anthropic history false)].
    rewrite app_nil_r. unfold AnthropicProvider._generateRequestBody, listed, field.
    destruct (_enableWebSearch p && _); simpl;
      rewrite <- (entries_of_messages (k := Anthropic)) by discriminate;
      now rewrite map_map.
  - (* OpenAI *)
    exists (if _enableWebSearch p then [system_entry] else []),
      (map (verbatim OpenAI) history), [].
    split; [|apply shape_plain].
    rewrite app_nil_r. unfold OpenAIProvider._generateRequestBody, listed, field.
    destruct (_enableWebSearch p); simpl;
      rewrite <- (entries_of_messages (k := OpenAI)) by discriminate;
      simpl; now rewrite map_map.
  - (* Gemini *)
    exists [], (GeminiProvider.contents_of p history), [].
    split.
    + rewrite app_nil_r. simpl.
      unfold GeminiProvider._generateRequestBody, listed, field.
      destruct (_enableWebSearch p && _); simpl; apply entries_of_contents.
    + repeat split; auto; [|easy].
      unfold GeminiProvider.contents_of.
      destruct (_enableWebSearch p && _).
      * apply gemini_carries.
      * apply (Forall2_verbatim Gemini).
  - (* OpenRouter *)
    exists (if _enableWebSearch p then [system_entry] else []),
      (map (verbatim OpenRouter) history), [].
    split; [|apply shape_plain].
    rewrite app_nil_r. unfold OpenRouterProvider._generateRequestBody, listed, field.
    rewrite <- (map_canonical (k := OpenRouter)) by (assumption || discriminate).
    destruct (_enableWebSearch p); simpl;
      rewrite <- (entries_of_messages (k := OpenRouter)) by discriminate;
      simpl; now rewrite map_map.
  - (* Ollama *)
    destruct (ollama_messages p Hc) as (pre & post & E & Hpre & Hpost & Hlast).
    exists pre, (map (verbatim Ollama) history), post. split.
    + rewrite <- E. unfold OllamaProvider._generateRequestBody, listed, field.
      destruct (_enableWebSearch p && _); simpl;
        apply (entries_of_messages (k := Ollama)); discriminate.
    + repeat split; auto using Forall2_verbatim.
  - (* Groq *)
    exists (if _enableWebSearch p then [system_entry] else []),
      (map (verbatim Groq) history), [].
    split; [|apply shape_plain].
    rewrite app_nil_r. unfold GroqProvider._generateRequestBody, listed, field.
    destruct (_enableWebSearch p); simpl;
      rewrite <- (entries_of_messages (k := Groq)) by discriminate;
      simpl; now rewrite map_map.
Qed.


(** The theorem for the Gemini adapter, at a history that ends with a user
    turn and the tool result injected after it. *)
Lemma request_body_lists_history_witness :
  let p := {| kind := Gemini; _apiKey := "k"; _model := "gemini-pro";
              _enableWebSearch := true |} in
  let history := [ {| role := "user"; content := "hi" |};
                   {| role := "assistant"; content := "hello" |};
                   {| role := "user"; content := "weather?" |};
                   {| role := "user"; content := "[WEB SEARCH RESULTS]" |} ] in
  Forall canonical history
  /\ exists pre mid post,
      listed (kind p) (_generateRequestBody p history) = Some (pre ++ mid ++ post)%list
      /\ Forall2 (carries (kind p)) mid history
      /\ post = [].
Proof.
  intros p history.
  assert (Forall canonical history) as Hc.
  { repeat constructor; first [now left | now right]. }
  split; [exact Hc|].
  destruct (request_body_lists_history p Hc) as (pre & mid & post & E & F & _ & _ & _ & L).
  exists pre, mid, post. split; [exact E|]. split; [exact F|].
  apply (L [ {| role := "user"; content := "hi" |};
             {| role := "assistant"; content := "hello" |};
             {| role := "user"; content := "weather?" |} ]
           {| role := "user"; content := "[WEB SEARCH RESULTS]" |}); reflexivity.
Defined.

(** C7, amended.  For every adapter, [_generateRequestBody] applied to the
    empty history returns a body object whose list has the shape the schema
    asks for and holds no turn of a conversation: it is empty for Anthropic
    and Gemini; for OpenAI, OpenRouter and Groq it is empty when the tools are
    off and holds the system instruction alone when they are on; for Ollama it
    holds the system instruction, when the tools are on and the model
    supports them, and then one user message with empty content. *)
Theorem empty_history_body (p : LLMProvider) :
  (exists fs, _generateRequestBody p [] = JObj fs)
  /\ listed (kind p) (_generateRequestBody p [])
     = Some (match kind p with
             | Anthropic | Gemini => []
             | OpenAI | OpenRouter | Groq =>
                 if _enableWebSearch p then [system_entry] else []
             | Ollama =>
                 (if _enableWebSearch p && OllamaProvider.supportsTools p
                  then [system_entry] else []) ++ [dummy_entry]
             end)%list
  /\ empty_or_absent (kind p) (_generateRequestBody p [])
     = match kind p with
       | Anthropic | Gemini => true
       | OpenAI | OpenRouter | Groq => negb (_enableWebSearch p)
       | Ollama => false
       end.
Proof.
  unfold _generateRequestBody.
  destruct (kind p); simpl;
    unfold AnthropicProvider._generateRequestBody, OpenAIProvider._generateRequestBody,
      GeminiProvider._generateRequestBody, OpenRouterProvider._generateRequestBody,
      OllamaProvider._generateRequestBody, GroqProvider._generateRequestBody,
      GeminiProvider.contents_of, OllamaProvider.messages_of,
      listed, empty_or_absent, field; simpl;
    destruct (_enableWebSearch p); simpl;
    try destruct (OllamaProvider.supportsTools p); simpl; eauto.
Qed.

(** C7, as stated, fails.  For the Ollama adapter the body built from the
    empty history has a [messages] list with one entry, the empty user
    message: the list is neither empty nor absent. *)
Lemma ollama_empty_history_sends_a_message :
  let p := {| kind := Ollama; _apiKey := ""; _model := "llama3.1";
              _enableWebSearch := false |} in
  empty_or_absent (kind p) (_generateRequestBody p []) = false
  /\ listed (kind p) (_generateRequestBody p []) = Some [dummy_entry].
Proof. split; reflexivity. Qed.

End BodyFacts.

(** ** The tool-call loop *)

Module LoopFacts.
Section WithPlatform.
Context {P : Platform}.
Import Extension LoopSpec.

Lemma run_settled (w : World) (s : Session) (n : nat) :
  flight s = Nothing \/ (exists e, flight s = Uncaught e) -> run n w s = s.
Proof.
  intros H. induction n as [|n IH]; simpl; [reflexivity|].
  assert (step w s = s) as ->; [|exact IH].
  unfold step. destruct H as [-> | [e ->]]; reflexivity.
Qed.

Lemma run_add (w : World) (n m : nat) (s : Session) :
  run (n + m) w s = run m w (run n w s).
Proof. revert s; induction n as [|n IH]; intros s; simpl; [reflexivity | apply IH]. Qed.











Lemma text_response_concluded (g : Garefowl) (p : LLMProvider) (response : JValue) :
  concluded g (fst (text_response g p response)) (snd (text_response g p response)).
Proof.
  unfold text_response.
  match goal with
  | |- context [match ?c with Throw _ => _ | Return _ => _ end] => destruct c as [text|e]
  end; simpl.
  - split; [reflexivity|]. right. exists text. now repeat split.
  - split; [reflexivity|]. left. repeat split; eauto.
Qed.













End WithPlatform.

Import Extension LoopSpec.






(** The raising case of the amended C1 is met: when every reply holds a
    text block whose text is the number 5 before its request for a search,
    the fourth reply makes the callback raise.  The session ends with the
    user turn and the three injected turns only, and the input box stays
    disabled. *)
Example depth_limit_may_end_in_a_raise :
  let s := Extension.run (P := Samples.platform) 7 Samples.number_world
             (Extension.start (Fixture.fresh true) "weather today?") in
  flight s = Uncaught (TypeError "textResponse.trim is not a function")
  /\ requests s = 4 /\ tools s = 3
  /\ map role (_history (app s))
     = [MessageRoles.USER; MessageRoles.USER; MessageRoles.USER; MessageRoles.USER]
  /\ reactive (app s) = false.
Proof.
  intros s.
  split; [vm_compute; reflexivity|].
  split; [vm_compute; reflexivity|].
  split; [vm_compute; reflexivity|].
  split; vm_compute; reflexivity.
Qed.

End LoopFacts.

(* ================================================================= *)
(** ** The loop, whatever the world answers *)

Module LoopMore.
Section WithPlatform.
Context {P : Platform}.
Import Extension LoopSpec LoopFacts LoopMeasure.

Lemma moved_refl (g : Garefowl) : moved g g.
Proof.
  split; try reflexivity.
  - exists []. now rewrite app_nil_r.
  - exists []. now rewrite app_nil_r.
Qed.

Lemma moved_trans (a b c : Garefowl) : moved a b -> moved b c -> moved a c.
Proof.
  intros [M1 S1 (h1 & H1 & C1) (d1 & D1 & N1)] [M2 S2 (h2 & H2 & C2) (d2 & D2 & N2)].
  split; try congruence.
  - exists (h1 ++ h2)%list. rewrite H2, H1, app_assoc. split; [reflexivity|].
    apply Forall_app. now split.
  - exists (d1 ++ d2)%list. rewrite D2, D1, app_assoc. split; [reflexivity|].
    rewrite in_app_iff. tauto.
Qed.

Lemma moved_show (g : Garefowl) (x : Shown) :
  x <> displayError LIMIT_REACHED false -> moved g (show x g).
Proof.
  intros Hx. split; try reflexivity.
  - exists []. simpl. now rewrite app_nil_r.
  - exists [x]. split; [reflexivity|]. simpl. intros [E|[]]. now apply Hx.
Qed.

Lemma moved_push (g : Garefowl) (t : Turn) :
  BodySpec.canonical t -> moved g (push t g).
Proof.
  intros Ht. split; try reflexivity.
  - exists [t]. split; [reflexivity | now constructor].
  - exists []. simpl. now rewrite app_nil_r.
Qed.

Lemma moved_same (g g' : Garefowl) :
  _maxToolCallDepth g' = _maxToolCallDepth g ->
  _settingsManager g' = _settingsManager g ->
  _history g' = _history g ->
  _chatDisplay g' = _chatDisplay g ->
  moved g g'.
Proof.
  intros M S H D. split; try assumption.
  - exists []. now rewrite app_nil_r.
  - exists []. now rewrite app_nil_r.
Qed.

Lemma limit_not_unknown (m : string) :
  displayError ("Unknown tool requested: " ++ m) false <> displayError LIMIT_REACHED false.
Proof. intros [= H]. Qed.

Lemma limit_not_search_failure (m : string) :
  displayError ("Web search failed: " ++ m) false <> displayError LIMIT_REACHED false.
Proof. intros [= H]. Qed.

Lemma limit_not_transcript_failure (m : string) :
  displayError ("YouTube transcript fetch failed: " ++ m) false
  <> displayError LIMIT_REACHED false.
Proof. intros [= H]. Qed.

(** What the part of [_handleToolCalls] below its guard does. *)
Lemma handleToolCalls_effect (g : Garefowl) (calls : list ToolCall) (p : LLMProvider) :
  _toolCallDepth g < _maxToolCallDepth g ->
  let g' := fst (_handleToolCalls g calls p) in
  moved g g'
  /\ _history g' = _history g
  /\ stored g' = stored g
  /\ match snd (_handleToolCalls g calls p) with
     | LLMRequest _ _ => False
     | WebSearch p' _ | TranscriptFetch p' _ =>
         p' = p /\ _toolCallDepth g' = S (_toolCallDepth g)
     | Uncaught _ => _toolCallDepth g' = S (_toolCallDepth g)
     | Nothing => _toolCallDepth g' = 0
     end.
Proof.
  intros Hd. unfold _handleToolCalls. apply Nat.leb_gt in Hd. rewrite Hd.
  assert (forall x, x <> displayError LIMIT_REACHED false ->
                    moved g (show x (set_depth (S (_toolCallDepth g)) g))) as Hs.
  { intros x Hx. eapply moved_trans; [|apply moved_show, Hx]. now apply moved_same. }
  assert (moved g (set_depth (S (_toolCallDepth g)) g)) as H0 by now apply moved_same.
  destruct calls as [|tc rest]; [simpl; auto|].
  destruct (Js.strictEqStr (name tc) "web_search").
  - destruct (Js.get (input tc) "query"); simpl.
    + split; [apply Hs; discriminate | auto].
    + split; [exact H0 | auto].
  - destruct (Js.strictEqStr (name tc) "youtube_summary").
    + destruct (Js.get (input tc) "video_url") as [v|e]; simpl;
        [|split; [exact H0 | auto]].
      destruct v; simpl; (split; [apply Hs; discriminate | auto]).
    + simpl. split; [|auto].
      eapply moved_trans; [apply Hs, limit_not_unknown|]. now apply moved_same.
Qed.

(** What the text part of the callback does. *)
Lemma text_response_effect (g : Garefowl) (p : LLMProvider) (response : JValue) :
  let g' := fst (text_response g p response) in
  moved g g'
  /\ _toolCallDepth g' = _toolCallDepth g
  /\ match snd (text_response g p response) with
     | Nothing => stored g' = _history g'
     | Uncaught _ => _history g' = _history g /\ stored g' = stored g
     | _ => False
     end.
Proof.
  unfold text_response.
  match goal with
  | |- context [match ?c with Throw _ => _ | Return _ => _ end] => destruct c as [text|e]
  end; simpl.
  - split; [|auto].
    eapply moved_trans;
      [apply moved_show with (x := displayMessage MessageRoles.ASSISTANT text);
       discriminate|].
    eapply moved_trans;
      [apply moved_push with (t := {| role := MessageRoles.ASSISTANT; content := text |});
       now right|].
    now apply moved_same.
  - split; [apply moved_refl | auto].
Qed.

(** What the callback of [sendRequest] does. *)
Lemma callback_effect (g : Garefowl) (p : LLMProvider) (r : string + JValue) :
  let g' := fst (callback g p r) in
  moved g g'
  /\ match snd (callback g p r) with
     | LLMRequest _ _ => False
     | WebSearch p' _ | TranscriptFetch p' _ =>
         p' = p /\ _enableWebSearch p = true
         /\ _toolCallDepth g < _maxToolCallDepth g
         /\ _toolCallDepth g' = S (_toolCallDepth g)
         /\ _history g' = _history g /\ stored g' = stored g
     | Uncaught _ =>
         (_toolCallDepth g' = _toolCallDepth g
          \/ _toolCallDepth g < _maxToolCallDepth g
             /\ _toolCallDepth g' = S (_toolCallDepth g))
         /\ _history g' = _history g /\ stored g' = stored g
     | Nothing =>
         _toolCallDepth g' = _toolCallDepth g \/ _toolCallDepth g' = 0
     end.
Proof.
  unfold callback.
  assert (moved g (_stopThinkingTimer g)) as H0 by now apply moved_same.
  destruct r as [error|response].
  - simpl. split; [|now left].
    eapply moved_trans; [exact H0|].
    eapply moved_trans;
      [apply moved_show with (x := displayError ("Error: " ++ error) true); discriminate|].
    now apply moved_same.
  - set (calls := try_catch _ _). unfold dispatch.
    destruct (some_calls calls && _enableWebSearch p
              && (_toolCallDepth (_stopThinkingTimer g)
                  <? _maxToolCallDepth (_stopThinkingTimer g))%nat) eqn:G.
    + apply andb_true_iff in G as [G Hd]. apply andb_true_iff in G as [_ Hw].
      apply Nat.ltb_lt in Hd.
      destruct (@handleToolCalls_effect (_stopThinkingTimer g)
                  (match calls with Some l => l | None => [] end) p Hd)
        as (M & H & St & F).
      split; [eapply moved_trans; eassumption|].
      destruct (snd (_handleToolCalls _ _ p)); simpl in *; intuition.
    + destruct (text_response_effect (_stopThinkingTimer g) p response) as (M & D & F).
      split; [eapply moved_trans; eassumption|].
      destruct (snd (text_response _ p response)); simpl in *; intuition.
Qed.

(** What the callback of a tool does. *)
Lemma search_done_effect (g : Garefowl) (d : string) (r : Failure + string) :
  let g' := fst (search_done g d r) in
  moved g g'
  /\ match r with
     | inl _ =>
         snd (search_done g d r) = Nothing
         /\ _toolCallDepth g' = 0 /\ _history g' = _history g /\ stored g' = stored g
     | inr results =>
         snd (search_done g d r)
         = LLMRequest (provider_of (_settingsManager g)) (_history g')
         /\ _toolCallDepth g' = _toolCallDepth g
         /\ _history g' = (_history g ++ [search_turn d results])%list
         /\ stored g' = _history g'
     end.
Proof.
  destruct r as [e|results]; simpl.
  - split; [|auto].
    eapply moved_trans;
      [apply moved_show
         with (x := displayError ("Web search failed: " ++ failure_message e) false),
           limit_not_search_failure|].
    now apply moved_same.
  - split; [|auto].
    eapply moved_trans; [apply moved_push with (t := search_turn d results); now left|].
    now apply moved_same.
Qed.

Lemma transcript_done_effect (g : Garefowl) (u : string) (r : Failure + string) :
  let g' := fst (transcript_done g u r) in
  moved g g'
  /\ match r with
     | inl _ =>
         snd (transcript_done g u r) = Nothing
         /\ _toolCallDepth g' = 0 /\ _history g' = _history g /\ stored g' = stored g
     | inr transcript =>
         snd (transcript_done g u r)
         = LLMRequest (provider_of (_settingsManager g)) (_history g')
         /\ _toolCallDepth g' = _toolCallDepth g
         /\ _history g' = (_history g ++ [transcript_turn u transcript])%list
         /\ stored g' = _history g'
     end.
Proof.
  destruct r as [e|t]; simpl.
  - split; [|auto].
    eapply moved_trans;
      [apply moved_show
         with (x := displayError
                      ("YouTube transcript fetch failed: " ++ failure_message e) false),
           limit_not_transcript_failure|].
    now apply moved_same.
  - split; [|auto].
    eapply moved_trans; [apply moved_push with (t := transcript_turn u t); now left|].
    now apply moved_same.
Qed.

(** One step of a session, whatever the world answers. *)
Lemma step_effect (w : World) (s : Session) :
  let s' := step w s in
  moved (app s) (app s')
  /\ match flight s with
     | LLMRequest p _ =>
         requests s' = S (requests s) /\ tools s' = tools s
         /\ match flight s' with
            | LLMRequest _ _ => False
            | WebSearch _ _ | TranscriptFetch _ _ =>
                _enableWebSearch p = true
                /\ _toolCallDepth (app s) < _maxToolCallDepth (app s)
                /\ _toolCallDepth (app s') = S (_toolCallDepth (app s))
                /\ _history (app s') = _history (app s)
            | Uncaught _ =>
                _toolCallDepth (app s') = _toolCallDepth (app s)
                \/ _toolCallDepth (app s) < _maxToolCallDepth (app s)
                   /\ _toolCallDepth (app s') = S (_toolCallDepth (app s))
            | Nothing =>
                _toolCallDepth (app s') = _toolCallDepth (app s)
                \/ _toolCallDepth (app s') = 0
            end
     | WebSearch _ _ | TranscriptFetch _ _ =>
         requests s' = requests s /\ tools s' = S (tools s)
         /\ (flight s' = Nothing /\ _toolCallDepth (app s') = 0
                /\ _history (app s') = _history (app s)
             \/ flight s' = LLMRequest (provider_of (_settingsManager (app s')))
                                      (_history (app s'))
                /\ _toolCallDepth (app s') = _toolCallDepth (app s)
                /\ exists t, _history (app s') = (_history (app s) ++ [t])%list
                             /\ role t = MessageRoles.USER)
     | Nothing | Uncaught _ => s' = s
     end.
Proof.
  unfold step. destruct (flight s) as [p h|p q|p u| |e] eqn:F.
  - pose proof (callback_effect (app s) p (sendRequest p h (llm w (requests s)))) as [M C].
    destruct (callback (app s) p (sendRequest p h (llm w (requests s)))) as [g f].
    simpl in *. split; [exact M|]. split; [reflexivity|]. split; [reflexivity|].
    destruct f; intuition.
  - destruct (clock w (tools s)) as [t1 t2].
    pose proof (search_done_effect (app s) t2
                  (SearXNGSearchClient.search t1 q (web w (tools s)))) as [M C].
    destruct (SearXNGSearchClient.search t1 q (web w (tools s))) as [e|results];
      destruct (search_done (app s) t2 _) as [g f]; simpl in *;
      (split; [exact M|]); (split; [reflexivity|]); (split; [reflexivity|]).
    + left. intuition.
    + right. destruct C as (-> & D & H & St). destruct M as [_ Se _ _].
      rewrite Se. repeat split; auto. now exists (search_turn t2 results).
  - pose proof (transcript_done_effect (app s) u
                  (snd (YouTubeTranscriptFetcher.fetchTranscript (host w (tools s)) u)))
      as [M C].
    destruct (snd (YouTubeTranscriptFetcher.fetchTranscript (host w (tools s)) u))
      as [e|t];
      destruct (transcript_done (app s) u _) as [g f]; simpl in *;
      (split; [exact M|]); (split; [reflexivity|]); (split; [reflexivity|]).
    + left. intuition.
    + right. destruct C as (-> & D & H & St). destruct M as [_ Se _ _].
      rewrite Se. repeat split; auto. now exists (transcript_turn u t).
  - split; [apply moved_refl | now destruct s].
  - split; [apply moved_refl | now destruct s].
Qed.

Lemma run_step (w : World) (n : nat) (s : Session) :
  run (S n) w s = step w (run n w s).
Proof.
  replace (S n) with (n + 1) by lia. now rewrite run_add.
Qed.

Lemma budget_decreases (w : World) (s : Session) :
  0 < budget s -> budget (step w s) < budget s.
Proof.
  pose proof (step_effect w s) as [[M _ _ _] C]. unfold budget. rewrite M.
  destruct (flight s) as [p h|p q|p u| |e]; try (simpl; lia); intros _.
  - destruct C as (_ & _ & C). destruct (flight (step w s)); try lia; tauto.
  - destruct C as (_ & _ & [(-> & _) | (-> & -> & _)]); lia.
  - destruct C as (_ & _ & [(-> & _) | (-> & -> & _)]); lia.
Qed.

Lemma budget_settles (w : World) (n : nat) (s : Session) :
  budget s <= n -> settled (run n w s).
Proof.
  revert s; induction n as [|n IH]; intros s H.
  - simpl. unfold settled. unfold budget in H.
    destruct (flight s); eauto; lia.
  - simpl. apply IH. destruct (budget s) as [|b] eqn:B.
    + assert (settled s) as Hs.
      { unfold settled. unfold budget in B. destruct (flight s); eauto; lia. }
      replace (step w s) with (run 1 w s) by reflexivity.
      rewrite run_settled by exact Hs. lia.
    + pose proof (budget_decreases w s). lia.
Qed.

Lemma allowance_kept (w : World) (s : Session) :
  tools (step w s) + allowance (step w s) <= tools s + allowance s.
Proof.
  pose proof (step_effect w s) as [[M _ _ _] C]. unfold allowance. rewrite M.
  destruct (flight s) as [p h|p q|p u| |e] eqn:F.
  - destruct C as (_ & -> & C). destruct (flight (step w s)); try lia; tauto.
  - destruct C as (_ & -> & [(-> & _) | (-> & -> & _)]); lia.
  - destruct C as (_ & -> & [(-> & _) | (-> & -> & _)]); lia.
  - rewrite C, F. lia.
  - rewrite C, F. lia.
Qed.

Lemma depth_kept (w : World) (s : Session) :
  _toolCallDepth (app s) <= _maxToolCallDepth (app s) ->
  _toolCallDepth (app (step w s)) <= _maxToolCallDepth (app (step w s)).
Proof.
  pose proof (step_effect w s) as [[M _ _ _] C]. rewrite M. intros H.
  destruct (flight s) as [p h|p q|p u| |e].
  - destruct C as (_ & _ & C). destruct (flight (step w s)); try tauto; lia.
  - destruct C as (_ & _ & [(_ & -> & _) | (_ & -> & _)]); lia.
  - destruct C as (_ & _ & [(_ & -> & _) | (_ & -> & _)]); lia.
  - now rewrite C.
  - now rewrite C.
Qed.

Lemma well_sent_kept (w : World) (s : Session) : well_sent (step w s).
Proof.
  pose proof (step_effect w s) as [_ C]. unfold well_sent.
  destruct (flight s) as [p h|p q|p u| |e] eqn:F.
  - destruct C as (_ & _ & C). now destruct (flight (step w s)).
  - destruct C as (_ & _ & [(-> & _) | (-> & _ & t & H & R)]); [exact I|].
    repeat split. rewrite H. eauto.
  - destruct C as (_ & _ & [(-> & _) | (-> & _ & t & H & R)]); [exact I|].
    repeat split. rewrite H. eauto.
  - rewrite C, F. exact I.
  - rewrite C, F. exact I.
Qed.

Lemma request_allowance_kept (w : World) (s : Session) :
  requests (step w s) + request_allowance (step w s) <= requests s + request_allowance s.
Proof.
  pose proof (step_effect w s) as [[M _ _ _] C]. unfold request_allowance. rewrite M.
  destruct (flight s) as [p h|p q|p u| |e] eqn:F.
  - destruct C as (-> & _ & C). destruct (flight (step w s)); try lia; tauto.
  - destruct C as (-> & _ & [(-> & _) | (-> & -> & _)]); lia.
  - destruct C as (-> & _ & [(-> & _) | (-> & -> & _)]); lia.
  - rewrite C, F. lia.
  - rewrite C, F. lia.
Qed.

Lemma run_moved (w : World) (n : nat) (s : Session) : moved (app s) (app (run n w s)).
Proof.
  induction n as [|n IH]; [apply moved_refl|]. rewrite run_step.
  eapply moved_trans; [exact IH | apply step_effect].
Qed.

Lemma start_shape (g : Garefowl) (input : string) :
  start g input = {| app := g; flight := Nothing; requests := 0; tools := 0 |}
  \/ valid_input input
     /\ exists g1,
         start g input = awaiting g1 (provider_of (_settingsManager g)) 0 0
         /\ _history g1 = (_history g ++ [user_turn input])%list
         /\ _toolCallDepth g1 = 0
         /\ _maxToolCallDepth g1 = _maxToolCallDepth g
         /\ _settingsManager g1 = _settingsManager g
         /\ stored g1 = stored g
         /\ _chatDisplay g1
            = (_chatDisplay g ++ [displayMessage MessageRoles.USER input])%list.
Proof.
  unfold start, _handleUserInput.
  destruct (JsString.isEmpty input) eqn:E1; [now left|].
  destruct (JsString.startsWith input "Thinking ") eqn:E2; [now left|].
  right. split; [now split|]. simpl.
  exists (_startThinkingTimer (set_reactive false (set_depth 0
            (push (user_turn input) (show (displayMessage MessageRoles.USER input) g))))).
  split; [reflexivity|]. now repeat split.
Qed.

(** X1.  From any state of the extension and whatever the provider, the
    search instance and the transcript host answer, the exchange started by
    one user input comes to rest within 2 * max + 1 handler runs (max being
    the depth limit), having run at most max tools and had at most max + 1
    provider requests answered. *)
Theorem user_turn_is_bounded (g : Garefowl) (input : string) (w : World) (k : nat) :
  let s := run (2 * _maxToolCallDepth g + 1 + k) w (start g input) in
  settled s
  /\ tools s <= _maxToolCallDepth g
  /\ requests s <= _maxToolCallDepth g + 1.
Proof.
  intros s.
  assert (budget (start g input) <= 2 * _maxToolCallDepth g + 1
          /\ tools (start g input) + allowance (start g input) <= _maxToolCallDepth g
          /\ requests (start g input) + request_allowance (start g input)
             <= _maxToolCallDepth g + 1) as (B & A & R).
  { destruct (start_shape g input) as [-> | (_ & g1 & -> & _ & D & M & _)].
    - unfold budget, allowance, request_allowance. simpl. lia.
    - unfold budget, allowance, request_allowance. simpl. rewrite D, M. lia. }
  split; [apply budget_settles; lia|].
  assert (forall n, tools (run n w (start g input)) + allowance (run n w (start g input))
                    <= _maxToolCallDepth g
                    /\ requests (run n w (start g input))
                       + request_allowance (run n w (start g input))
                       <= _maxToolCallDepth g + 1) as H.
  { induction n as [|n [IH1 IH2]]; [now split|]. rewrite run_step.
    pose proof (allowance_kept w (run n w (start g input))).
    pose proof (request_allowance_kept w (run n w (start g input))). lia. }
  destruct (H (2 * _maxToolCallDepth g + 1 + k)) as [H1 H2]. fold s in H1, H2. lia.
Qed.

(** X2.  However a session runs, the depth limit itself never changes and
    the tool-call depth never exceeds the larger of its starting value and
    the limit. *)
Theorem depth_stays_within_limit (w : World) (s : Session) (n : nat) :
  _maxToolCallDepth (app (run n w s)) = _maxToolCallDepth (app s)
  /\ _toolCallDepth (app (run n w s))
     <= Nat.max (_toolCallDepth (app s)) (_maxToolCallDepth (app s)).
Proof.
  split; [apply run_moved|].
  induction n as [|n IH]; [simpl; lia|]. rewrite run_step.
  pose proof (run_moved w n s) as [M _ _ _].
  pose proof (step_effect w (run n w s)) as [[M' _ _ _] C].
  destruct (flight (run n w s)) as [p h|p q|p u| |e].
  - destruct C as (_ & _ & C). destruct (flight (step w (run n w s))); try tauto; lia.
  - destruct C as (_ & _ & [(_ & -> & _) | (_ & -> & _)]); lia.
  - destruct C as (_ & _ & [(_ & -> & _) | (_ & -> & _)]); lia.
  - now rewrite C.
  - now rewrite C.
Qed.

(** X3.  However a session runs, the history is only appended to: the turns
    it held stay in place, and every turn added has the role user or
    assistant. *)
Theorem history_only_grows (w : World) (s : Session) (n : nat) :
  exists added,
    _history (app (run n w s)) = (_history (app s) ++ added)%list
    /\ Forall BodySpec.canonical added
    /\ (Forall BodySpec.canonical (_history (app s)) ->
        Forall BodySpec.canonical (_history (app (run n w s)))).
Proof.
  destruct (run_moved w n s) as [_ _ (added & H & C) _].
  exists added. split; [exact H|]. split; [exact C|].
  intros Hc. rewrite H. apply Forall_app. now split.
Qed.

(** X4.  However a session runs, from any state, the error 'Web search limit
    reached' of _handleToolCalls is never displayed: the callback only calls
    _handleToolCalls while the depth is below the limit. *)
Theorem limit_error_is_never_shown (w : World) (s : Session) (n : nat) :
  exists shown,
    _chatDisplay (app (run n w s)) = (_chatDisplay (app s) ++ shown)%list
    /\ ~ In (displayError LIMIT_REACHED false) shown.
Proof. apply run_moved. Qed.

(** X5.  Every provider request made during the exchange started by a user
    input is built by the adapter the settings name, carries the whole
    history of that moment, and that history ends with a user turn. *)
Theorem requests_end_with_a_user_turn (g : Garefowl) (input : string) (w : World)
        (n : nat) :
  match flight (run n w (start g input)) with
  | LLMRequest p h =>
      p = provider_of (_settingsManager g)
      /\ h = _history (app (run n w (start g input)))
      /\ exists h' t, h = (h' ++ [t])%list /\ role t = MessageRoles.USER
  | _ => True
  end.
Proof.
  assert (well_sent (run n w (start g input))) as H.
  { destruct n as [|n]; [|rewrite run_step; apply well_sent_kept].
    simpl. destruct (start_shape g input) as [-> | (_ & g1 & -> & H & _ & _ & Se & _)].
    - exact I.
    - unfold well_sent. simpl. rewrite Se. repeat split. rewrite H. eauto. }
  unfold well_sent in H.
  destruct (flight (run n w (start g input))) as [p h| | | |]; try exact I.
  destruct H as (-> & H). split; [|exact H].
  f_equal. destruct (run_moved w n (start g input)) as [_ Se _ _]. rewrite Se.
  destruct (start_shape g input) as [-> | (_ & g1 & -> & _ & _ & _ & Se1 & _)];
    [reflexivity | exact Se1].
Qed.

Lemma sendRequest_fails_otherwise (p : LLMProvider) (history : list Turn)
      (o : TransportOutcome) :
  (forall raw json, o = Received 200 raw -> JSON_parse (JStr raw) <> Return json) ->
  exists msg, sendRequest p history o = inl msg.
Proof.
  intros H. unfold sendRequest. destruct o as [e| |status raw|e]; eauto.
  destruct (status =? 200)%Z eqn:E; [|eauto].
  apply Z.eqb_eq in E. subst status.
  destruct (JSON_parse (JStr raw)) as [v|e] eqn:Hp; [|eauto].
  now elim (H raw v eq_refl).
Qed.

(** X6.  sendRequest hands a response to the callback exactly when the
    transport delivered a body with status 200 that JSON.parse accepts, and
    the response is the parsed value; in every other case the callback gets
    an error. *)
Theorem sendRequest_delivers_only_200 (p : LLMProvider) (history : list Turn)
        (o : TransportOutcome) (json : JValue) :
  sendRequest p history o = inr json
  <-> exists raw, o = Received 200 raw /\ JSON_parse (JStr raw) = Return json.
Proof.
  unfold sendRequest. split.
  - destruct o as [e| |status raw|e]; try discriminate.
    destruct (status =? 200)%Z eqn:E; [|discriminate].
    apply Z.eqb_eq in E. subst status.
    destruct (JSON_parse (JStr raw)) as [v|e] eqn:Hp; [|discriminate].
    intros [= <-]. now exists raw.
  - intros (raw & -> & Hp). simpl. now rewrite Hp.
Qed.

(** X7.  When the request in flight does not come back as a parsable
    status-200 body, the callback receives an error message that names the
    endpoint URL; the exchange ends there with that message displayed as
    'Error: ...' with the settings button, the history, the stored history
    and the depth unchanged, the input box handed back and the timer
    stopped, and nothing runs afterwards. *)
Theorem transport_failure_ends_the_exchange (w : World) (s : Session) (p : LLMProvider)
        (h : list Turn) :
  flight s = LLMRequest p h ->
  (forall raw json,
      llm w (requests s) = Received 200 raw -> JSON_parse (JStr raw) <> Return json) ->
  exists msg,
    sendRequest p h (llm w (requests s)) = inl msg
    /\ JsString.includes msg (_getEndpointUrl p) = true
    /\ flight (step w s) = Nothing
    /\ failed (app s) (app (step w s)) ("Error: " ++ msg) true
    /\ _toolCallDepth (app (step w s)) = _toolCallDepth (app s)
    /\ forall n, run n w (step w s) = step w s.
Proof.
  intros F H. destruct (sendRequest_fails_otherwise p h H) as [msg E].
  exists msg. split; [exact E|]. split.
  { pose proof (sendRequest_carries_url p h (llm w (requests s))) as U.
    now rewrite E in U. }
  assert (step w s = {| app := ready (show (displayError ("Error: " ++ msg) true)
                                          (_stopThinkingTimer (app s)));
                        flight := Nothing; requests := S (requests s);
                        tools := tools s |}) as ->.
  { unfold step. rewrite F, E. reflexivity. }
  simpl. split; [reflexivity|]. split; [now repeat split|]. split; [reflexivity|].
  intros n. apply run_settled. now left.
Qed.

(** X8.  When a reply object starts no tool round (no tool calls, tools
    disabled, or depth at the limit), the callback appends one assistant
    turn and stores the history: the extracted text, or the notice '[No
    response from LLM ...]' when the text is blank, not truthy, or the
    extraction raised. When the adapter extracts a truthy value that is no
    string, the callback raises instead: nothing is appended or displayed
    and the input box is not handed back. *)
Theorem reply_without_tool_round (g : Garefowl) (p : LLMProvider)
        (fields : list (string * JValue)) :
  let response := JObj fields in
  some_calls (try_catch (_extractToolCalls p response) (fun _ => None))
  && _enableWebSearch p && (_toolCallDepth g <? _maxToolCallDepth g)%nat = false ->
  let '(g', f) := callback g p (inr response) in
  match _extractResponseText p response with
  | Return (JStr text) =>
      f = Nothing
      /\ answered g g' (if JsString.isEmpty (JsString.trim text) then NO_RESPONSE else text)
  | Return other =>
      if Js.truthy other
      then (exists e, f = Uncaught e)
           /\ _history g' = _history g /\ stored g' = stored g
           /\ _chatDisplay g' = _chatDisplay g /\ reactive g' = reactive g
      else f = Nothing /\ answered g g' NO_RESPONSE
  | Throw _ => f = Nothing /\ answered g g' NO_RESPONSE
  end.
Proof.
  intros response G. unfold callback, dispatch.
  change (_toolCallDepth (_stopThinkingTimer g)) with (_toolCallDepth g).
  change (_maxToolCallDepth (_stopThinkingTimer g)) with (_maxToolCallDepth g).
  rewrite G. unfold text_response, response.
  destruct (_extractResponseText p (JObj fields)) as [v|e]; simpl.
  - destruct v as [| |b|q|text|l|o]; simpl;
      try (split; [reflexivity | now repeat split]).
    + destruct b; simpl; [split; eauto | split; [reflexivity | now repeat split]].
    + destruct (negb (Qeq_bool q 0)); simpl;
        [split; eauto | split; [reflexivity | now repeat split]].
    + destruct (JsString.isEmpty (JsString.trim text)); simpl;
        (split; [reflexivity | now repeat split]).
    + split; eauto.
    + split; eauto.
  - split; [reflexivity | now repeat split].
Qed.

(** X9.  When the web search or the transcript fetch reports an error, the
    exchange ends: the error is displayed with the prefix 'Web search
    failed: ' or 'YouTube transcript fetch failed: ', the history is
    unchanged, the depth is reset to 0, the input box is handed back and the
    timer stopped. *)
Theorem tool_failure_ends_the_exchange (w : World) (s : Session) :
  match flight s with
  | WebSearch _ query =>
      forall e,
        SearXNGSearchClient.search (fst (clock w (tools s))) query (web w (tools s)) = inl e ->
        flight (step w s) = Nothing
        /\ failed (app s) (app (step w s)) ("Web search failed: " ++ failure_message e) false
        /\ _toolCallDepth (app (step w s)) = 0
  | TranscriptFetch _ videoUrl =>
      forall e,
        snd (YouTubeTranscriptFetcher.fetchTranscript (host w (tools s)) videoUrl) = inl e ->
        flight (step w s) = Nothing
        /\ failed (app s) (app (step w s))
             ("YouTube transcript fetch failed: " ++ failure_message e) false
        /\ _toolCallDepth (app (step w s)) = 0
  | _ => True
  end.
Proof.
  unfold step. destruct (flight s) as [p h|p q|p u| |e0]; try exact I.
  - intros e E. destruct (clock w (tools s)) as [t1 t2]. simpl in E. rewrite E. simpl.
    split; [reflexivity|]. split; [now repeat split | reflexivity].
  - intros e E. rewrite E. simpl.
    split; [reflexivity|]. split; [now repeat split | reflexivity].
Qed.

(** X10.  With web search disabled in the settings, an exchange never runs a
    tool, whatever the provider replies: it has at most one request answered
    and is at rest after one handler run. *)
Theorem no_tool_without_web_search (g : Garefowl) (input : string) (w : World) (n : nat) :
  getEnableWebSearch (_settingsManager g) = false ->
  tools (run n w (start g input)) = 0
  /\ requests (run n w (start g input)) <= 1
  /\ settled (run (S n) w (start g input)).
Proof.
  intros Hw.
  assert (settled (run 1 w (start g input))
          /\ tools (run 1 w (start g input)) = 0
          /\ requests (run 1 w (start g input)) <= 1
          /\ tools (start g input) = 0 /\ requests (start g input) = 0) as (S1 & T1 & R1 & T0 & R0).
  { destruct (start_shape g input) as [-> | (_ & g1 & -> & _)].
    - repeat split; simpl; auto. now left.
    - pose proof (step_effect w (awaiting g1 (provider_of (_settingsManager g)) 0 0))
        as [_ (R & T & C)].
      change (run 1 w ?x) with (step w x). simpl in R, T, C |- *.
      rewrite R, T. repeat split; try lia.
      unfold settled.
      destruct (flight (step w _)); eauto; try tauto;
        destruct C as (C & _); unfold provider_of in C; simpl in C; congruence. }
  destruct n as [|n].
  - simpl. rewrite T0, R0. repeat split; [lia | exact S1].
  - replace (S n) with (1 + n) by lia. rewrite run_add, run_settled by exact S1.
    repeat split; try assumption.
    replace (S (1 + n)) with (1 + S n) by lia. rewrite run_add, run_settled by exact S1.
    exact S1.
Qed.

End WithPlatform.
Import Extension LoopSpec LoopMeasure.

Lemma transport_failure_ends_the_exchange_witness :
  exists msg,
    sendRequest (P := Fixture.platform) (Fixture.anthropic false)
                [user_turn "hello"] (NetworkFailure (HostError "offline")) = inl msg
    /\ flight (step (P := Fixture.platform) Samples.offline_world
                    (start (Fixture.fresh false) "hello")) = Nothing.
Proof.
  destruct (@transport_failure_ends_the_exchange Fixture.platform Samples.offline_world
              (start (Fixture.fresh false) "hello") (Fixture.anthropic false)
              [user_turn "hello"] eq_refl) as (msg & E & _ & F & _).
  - intros raw json H. discriminate H.
  - exists msg. split; [exact E | exact F].
Defined.

Lemma reply_without_tool_round_witness :
  let '(g', f) := callback (P := Fixture.platform) (Fixture.fresh false)
                           (Fixture.anthropic false) (inr (JObj Samples.mixed_reply)) in
  f = Nothing /\ answered (Fixture.fresh false) g' "Let me look.".
Proof.
  exact (@reply_without_tool_round Fixture.platform (Fixture.fresh false)
           (Fixture.anthropic false) Samples.mixed_reply eq_refl).
Defined.

Lemma no_tool_without_web_search_witness :
  tools (run (P := Fixture.platform) 3 Fixture.searching_world
             (start (Fixture.fresh false) "hello")) = 0
  /\ requests (run (P := Fixture.platform) 3 Fixture.searching_world
                   (start (Fixture.fresh false) "hello")) <= 1
  /\ settled (run (P := Fixture.platform) 4 Fixture.searching_world
                  (start (Fixture.fresh false) "hello")).
Proof.
  apply (@no_tool_without_web_search Fixture.platform (Fixture.fresh false) "hello"
           Fixture.searching_world 3).
  reflexivity.
Defined.

End LoopMore.

(* ================================================================= *)
(** ** The adapters *)

Module AdapterFacts.
Import JsString JsStringFacts AdapterSpec.

(** *** Tool support *)

Lemma lowerChar_idem (c : ascii) : lowerChar (lowerChar c) = lowerChar c.
Proof.
  destruct c as [[] [] [] [] [] [] [] []]; reflexivity.
Qed.

Lemma toLowerCase_idem (s : string) : toLowerCase (toLowerCase s) = toLowerCase s.
Proof. induction s as [|c s IH]; simpl; [reflexivity | now rewrite lowerChar_idem, IH]. Qed.

Lemma toLowerCase_append (a b : string) :
  toLowerCase (a ++ b) = toLowerCase a ++ toLowerCase b.
Proof. induction a as [|c a IH]; simpl; [reflexivity | now rewrite IH]. Qed.

Section WithPlatform.
Context {P : Platform}.

(** X11.  supportsTools is true for every model of the five hosted adapters.
    For Ollama it depends on the model name only up to ASCII letter case, it
    is true for every name that contains one of the listed model families in
    any letter case, and false for the empty name. *)
Theorem tool_support_by_model_name (p : LLMProvider) :
  match kind p with
  | Ollama =>
      (forall m, supportsTools (with_model m p)
                 = supportsTools (with_model (toLowerCase m) p))
      /\ (forall pre name post,
             In (toLowerCase name) OllamaProvider.toolModels ->
             supportsTools (with_model (pre ++ name ++ post) p) = true)
      /\ supportsTools (with_model "" p) = false
  | _ => forall m, supportsTools (with_model m p) = true
  end.
Proof.
  destruct p as [k key model ws]. destruct k; simpl; try reflexivity.
  split; [|split].
  - intros m. unfold supportsTools, with_model. cbn [kind].
    unfold OllamaProvider.supportsTools. cbn [_model]. now rewrite toLowerCase_idem.
  - intros pre name post Hin. unfold supportsTools, with_model. cbn [kind].
    unfold OllamaProvider.supportsTools. cbn [_model].
    apply existsb_exists. exists (toLowerCase name). split; [exact Hin|].
    rewrite !toLowerCase_append. apply includes_middle.
  - reflexivity.
Qed.

(** X12.  For every adapter and history, the request body has no 'tools'
    field exactly when web search is disabled or the model does not support
    tools, and in that case the body is the one built with web search
    disabled (in particular no system instruction about tools is added). *)
Theorem tools_attached_iff_enabled (p : LLMProvider) (history : list Turn) :
  (field (_generateRequestBody p history) "tools" = JUndefined
   <-> _enableWebSearch p && supportsTools p = false)
  /\ (_enableWebSearch p && supportsTools p = false ->
      _generateRequestBody p history = _generateRequestBody (without_tools p) history).
Proof.
  destruct p as [k key model ws].
  unfold _generateRequestBody, supportsTools, without_tools. cbn [kind _enableWebSearch].
  destruct k;
    unfold AnthropicProvider._generateRequestBody, OpenAIProvider._generateRequestBody,
      GeminiProvider._generateRequestBody, OpenRouterProvider._generateRequestBody,
      OllamaProvider._generateRequestBody, GroqProvider._generateRequestBody,
      GeminiProvider.contents_of, OllamaProvider.messages_of,
      AnthropicProvider.supportsTools, OpenAIProvider.supportsTools,
      GeminiProvider.supportsTools, OpenRouterProvider.supportsTools,
      GroqProvider.supportsTools;
    cbn [_enableWebSearch _model kind];
    try (destruct ws; simpl;
         (split; [split|]); first [intros; reflexivity | intros H; discriminate H]).
  (* Ollama *)
  change (OllamaProvider.supportsTools
            {| kind := Ollama; _apiKey := key; _model := model; _enableWebSearch := false |})
    with (OllamaProvider.supportsTools
            {| kind := Ollama; _apiKey := key; _model := model; _enableWebSearch := ws |}).
  destruct (ws && OllamaProvider.supportsTools
                    {| kind := Ollama; _apiKey := key; _model := model;
                       _enableWebSearch := ws |}) eqn:E.
  - simpl. (split; [split|]); intros H; discriminate H.
  - simpl. (split; [split|]); intros; reflexivity.
Qed.

(** X13.  No adapter's request body depends on the API key. For every
    adapter but Gemini the endpoint URL does not depend on it either, and so
    nothing sendRequest hands to the callback does. *)
Theorem api_key_stays_out_of_the_request (p : LLMProvider) (key : string)
        (history : list Turn) :
  _generateRequestBody (with_key key p) history = _generateRequestBody p history
  /\ match kind p with
     | Gemini => True
     | _ =>
         _getEndpointUrl (with_key key p) = _getEndpointUrl p
         /\ forall o, sendRequest (with_key key p) history o = sendRequest p history o
     end.
Proof.
  destruct p as [k k0 model ws]. destruct k; (split; [reflexivity|]);
    try exact I; split; reflexivity.
Qed.

(** X14.  createProvider passes the key, the model and the web-search flag
    unchanged, builds for each of the six identifiers its own adapter, and
    builds the Anthropic adapter for any other identifier. *)
Theorem factory_falls_back_to_anthropic (providerType apiKey model : string) (ws : bool) :
  let p := LLMProviderFactory.createProvider providerType apiKey model ws in
  _apiKey p = apiKey /\ _model p = model /\ _enableWebSearch p = ws
  /\ (forall k, providerType = identifier k -> kind p = k)
  /\ ((forall k, providerType <> identifier k) -> kind p = Anthropic).
Proof.
  simpl. repeat split.
  - intros k ->. now destruct k.
  - intros H. unfold LLMProviderFactory.kind_of.
    destruct (String.eqb providerType LLMProviders.ANTHROPIC) eqn:E0; [reflexivity|].
    destruct (String.eqb providerType LLMProviders.OPENAI) eqn:E1;
      [apply String.eqb_eq in E1; now elim (H OpenAI)|].
    destruct (String.eqb providerType LLMProviders.GEMINI) eqn:E2;
      [apply String.eqb_eq in E2; now elim (H Gemini)|].
    destruct (String.eqb providerType LLMProviders.OPENROUTER) eqn:E3;
      [apply String.eqb_eq in E3; now elim (H OpenRouter)|].
    destruct (String.eqb providerType LLMProviders.OLLAMA) eqn:E4;
      [apply String.eqb_eq in E4; now elim (H Ollama)|].
    destruct (String.eqb providerType LLMProviders.GROQ) eqn:E5;
      [apply String.eqb_eq in E5; now elim (H Groq)|].
    reflexivity.
Qed.

(** *** What the adapters read out of a reply *)

Lemma first_tool_use_single (blocks : list JValue) (l : list ToolCall) :
  AnthropicProvider.first_tool_use blocks = Return (Some l) -> List.length l = 1.
Proof.
  induction blocks as [|b blocks IH]; simpl; [discriminate|].
  unfold bind. destruct (Js.get b "type") as [ty|]; [|discriminate].
  destruct (Js.strictEqStr ty "tool_use"); [|exact IH].
  destruct (Js.get b "id"); [|discriminate].
  destruct (Js.get b "name"); [|discriminate].
  destruct (Js.get b "input"); [|discriminate].
  now intros [= <-].
Qed.

Lemma first_function_call_single (parts : list JValue) (l : list ToolCall) :
  GeminiProvider.first_function_call parts = Return (Some l) -> List.length l = 1.
Proof.
  induction parts as [|b parts IH]; simpl; [discriminate|].
  unfold bind. destruct (Js.get b "functionCall") as [fc|]; [|discriminate].
  destruct (Js.truthy fc); [|exact IH].
  destruct (Js.get fc "name"); [|discriminate].
  destruct (Js.get fc "args"); [|discriminate].
  now intros [= <-].
Qed.

(** X15.  Whatever the reply, when the Anthropic or the Gemini adapter
    reports tool calls it reports exactly one. *)
Theorem block_adapters_report_one_call (p : LLMProvider) (response : JValue) :
  match kind p with
  | Anthropic | Gemini =>
      match _extractToolCalls p response with
      | Return (Some l) => List.length l = 1
      | _ => True
      end
  | _ => True
  end.
Proof.
  unfold _extractToolCalls. destruct (kind p); try exact I.
  - destruct (AnthropicProvider._extractToolCalls response) as [[l|]|] eqn:E; try exact I.
    unfold AnthropicProvider._extractToolCalls, bind in E.
    destruct (Js.get response "content") as [c|]; [|discriminate].
    destruct (Js.truthy c); [|discriminate].
    destruct (Js.iterate c) as [blocks|]; [|discriminate].
    eapply first_tool_use_single; eassumption.
  - destruct (GeminiProvider._extractToolCalls response) as [[l|]|] eqn:E; try exact I.
    unfold GeminiProvider._extractToolCalls, bind in E.
    destruct (Js.get response "candidates") as [c|]; [|discriminate].
    destruct (Js.opt_first c) as [c0|]; [|discriminate].
    destruct (Js.opt_get c0 "content") as [c1|]; [|discriminate].
    destruct (Js.opt_get c1 "parts") as [c2|]; [|discriminate].
    destruct (Js.truthy c2); [|discriminate].
    destruct (Js.iterate c2) as [blocks|]; [|discriminate].
    eapply first_function_call_single; eassumption.
Qed.

Lemma first_tool_use_found (pre post : list JValue) (b : JValue) :
  Forall (fun x => Js.isNullish x = false /\ is_tool_use x = false) pre ->
  Js.isNullish b = false -> is_tool_use b = true ->
  AnthropicProvider.first_tool_use (pre ++ b :: post) = Return (Some [call_of_block b]).
Proof.
  intros Hpre Hb Ht. induction Hpre as [|x pre [Hx Hn] _ IH]; simpl.
  - rewrite !SearchFacts.get_field by (assumption || reflexivity). simpl.
    unfold is_tool_use in Ht. now rewrite Ht.
  - rewrite SearchFacts.get_field by (assumption || reflexivity). simpl.
    unfold is_tool_use in Hn. now rewrite Hn.
Qed.

Lemma first_text_found (pre post : list JValue) (b : JValue) :
  Forall (fun x => Js.isNullish x = false /\ is_text x = false) pre ->
  Js.isNullish b = false -> is_text b = true ->
  AnthropicProvider.first_text (pre ++ b :: post) = Return (field b "text").
Proof.
  intros Hpre Hb Ht. unfold is_text in Ht. apply andb_true_iff in Ht as [T1 T2].
  induction Hpre as [|x pre [Hx Hn] _ IH]; simpl.
  - rewrite !SearchFacts.get_field by (assumption || reflexivity). simpl. now rewrite T1, T2.
  - rewrite !SearchFacts.get_field by (assumption || reflexivity). simpl.
    unfold is_text in Hn. destruct (Js.strictEqStr (field x "type") "text"); [|exact IH].
    simpl in Hn. now rewrite Hn.
Qed.

Lemma first_text_none (blocks : list JValue) :
  Forall (fun x => Js.isNullish x = false /\ is_text x = false) blocks ->
  AnthropicProvider.first_text blocks = Return (JStr "").
Proof.
  induction 1 as [|x pre [Hx Hn] _ IH]; simpl; [reflexivity|].
  rewrite !SearchFacts.get_field by (assumption || reflexivity). simpl.
  unfold is_text in Hn. destruct (Js.strictEqStr (field x "type") "text"); [|exact IH].
  simpl in Hn. now rewrite Hn.
Qed.

(** X16.  Of an Anthropic reply whose content is a list of blocks none of
    which is null: the tool call reported is the first block of type
    tool_use (its id, name and input); the text extracted is the text of the
    first block of type text that has a non-empty text; and it is the empty
    string when there is no such block. *)
Theorem anthropic_reads_the_first_block (p : LLMProvider) (fields : list (string * JValue))
        (blocks : list JValue) :
  kind p = Anthropic ->
  Js.lookup "content" fields = JArr blocks ->
  Forall (fun x => Js.isNullish x = false) blocks ->
  (forall pre b post,
      blocks = (pre ++ b :: post)%list ->
      Forall (fun x => is_tool_use x = false) pre -> is_tool_use b = true ->
      _extractToolCalls p (JObj fields) = Return (Some [call_of_block b]))
  /\ (forall pre b post,
         blocks = (pre ++ b :: post)%list ->
         Forall (fun x => is_text x = false) pre -> is_text b = true ->
         _extractResponseText p (JObj fields) = Return (field b "text"))
  /\ (Forall (fun x => is_text x = false) blocks ->
      _extractResponseText p (JObj fields) = Return (JStr "")).
Proof.
  intros K Hc Hn. unfold _extractToolCalls, _extractResponseText. rewrite K.
  unfold AnthropicProvider._extractToolCalls, AnthropicProvider._extractResponseText.
  simpl. rewrite Hc. simpl.
  assert (forall (Q : JValue -> Prop) l,
             Forall (fun x => Js.isNullish x = false) l -> Forall Q l ->
             Forall (fun x => Js.isNullish x = false /\ Q x) l) as Hj.
  { intros Q l H1 H2. rewrite Forall_forall in *. auto. }
  split; [|split].
  - intros pre b post -> Hpre Hb. apply Forall_app in Hn as [Hn1 Hn2].
    apply first_tool_use_found; [now apply Hj | now inversion Hn2 | exact Hb].
  - intros pre b post -> Hpre Hb. apply Forall_app in Hn as [Hn1 Hn2].
    apply first_text_found; [now apply Hj | now inversion Hn2 | exact Hb].
  - intros Hpre. apply first_text_none. now apply Hj.
Qed.

Lemma mapM_length (A B : Type) (f : A -> Completion B) (l : list A) (r : list B) :
  mapM f l = Return r -> Forall2 (fun a b => f a = Return b) l r.
Proof.
  revert r; induction l as [|a l IH]; intros r; simpl.
  - intros [= <-]. constructor.
  - unfold bind. destruct (f a) as [b|] eqn:E; [|discriminate].
    destruct (mapM f l) as [bs|]; [|discriminate].
    intros [= <-]. constructor; [exact E | now apply IH].
Qed.

Lemma mapM_raises (A B : Type) (f : A -> Completion B) (l : list A) (a : A) (e : Exn) :
  In a l -> f a = Throw e -> exists e', mapM f l = Throw e'.
Proof.
  intros Hin Hf. induction l as [|x l IH]; [easy|]. simpl. unfold bind.
  destruct (f x) as [b|e0] eqn:E; [|eauto].
  destruct Hin as [-> | Hin]; [congruence|].
  destruct (IH Hin) as [e' ->]. eauto.
Qed.

Lemma to_call_name (tc : JValue) (c : ToolCall) :
  ChatCompletions.to_call tc = Return c -> name c = function_name tc.
Proof.
  unfold ChatCompletions.to_call, bind, function_name.
  destruct tc; simpl; try discriminate;
    match goal with
    | |- context [Js.get ?v "name"] => destruct v; simpl; try discriminate
    end;
    match goal with
    | |- context [JSON_parse ?a] => destruct (JSON_parse a); try discriminate
    end; now intros [= <-].
Qed.

(** X17.  When the OpenAI, OpenRouter or Groq adapter reports tool calls for
    a reply whose tool_calls is a list, it reports one call per element, in
    order, each named by its element's function.name. *)
Theorem chat_adapters_report_every_call (p : LLMProvider) (response : JValue)
        (elements : list JValue) (calls : list ToolCall) :
  chat_completions (kind p) = true ->
  ChatCompletions.tool_calls_of response = Return (JArr elements) ->
  _extractToolCalls p response = Return (Some calls) ->
  List.length calls = List.length elements
  /\ map name calls = map function_name elements.
Proof.
  intros K Ht. unfold _extractToolCalls.
  assert (ChatCompletions._extractToolCalls response = Return (Some calls) ->
          Forall2 (fun a b => ChatCompletions.to_call a = Return b) elements calls) as H.
  { unfold ChatCompletions._extractToolCalls. rewrite Ht. simpl. unfold bind.
    destruct (mapM ChatCompletions.to_call elements) as [l|] eqn:E; [|discriminate].
    intros [= <-]. now apply mapM_length. }
  intros E. assert (Forall2 (fun a b => ChatCompletions.to_call a = Return b) elements calls)
    as F by (destruct (kind p); try discriminate; now apply H).
  clear - F. induction F as [|a b l l' Hab _ [IH1 IH2]]; [now split|].
  simpl. split; [now rewrite IH1|]. now rewrite IH2, (to_call_name _ Hab).
Qed.

(** X18.  For the OpenAI, OpenRouter and Groq adapters, one element of
    tool_calls that cannot be read (for instance arguments that are no JSON)
    makes the extraction raise; the callback then treats the reply as a
    plain text reply: no tool is run, even for the readable calls, and the
    depth is unchanged. *)
Theorem unreadable_call_cancels_the_round (g : Garefowl) (p : LLMProvider)
        (response : JValue) (elements : list JValue) (tc : JValue) (e : Exn) :
  chat_completions (kind p) = true ->
  ChatCompletions.tool_calls_of response = Return (JArr elements) ->
  In tc elements ->
  ChatCompletions.to_call tc = Throw e ->
  (exists e', _extractToolCalls p response = Throw e')
  /\ Extension.callback g p (inr response)
     = Extension.text_response (Extension._stopThinkingTimer g) p response
  /\ idle (snd (Extension.callback g p (inr response)))
  /\ _toolCallDepth (fst (Extension.callback g p (inr response))) = _toolCallDepth g.
Proof.
  intros K Ht Hin He.
  assert (exists e', _extractToolCalls p response = Throw e') as [e' E].
  { unfold _extractToolCalls.
    assert (exists e', ChatCompletions._extractToolCalls response = Throw e') as [e' E].
    { unfold ChatCompletions._extractToolCalls. rewrite Ht. simpl.
      destruct (mapM_raises ChatCompletions.to_call elements tc Hin He) as [e' ->].
      simpl. eauto. }
    exists e'. destruct (kind p); try discriminate; exact E. }
  split; [eauto|].
  assert (Extension.callback g p (inr response)
          = Extension.text_response (Extension._stopThinkingTimer g) p response) as C.
  { unfold Extension.callback. rewrite E. reflexivity. }
  split; [exact C|]. rewrite C. unfold idle.
  destruct (LoopFacts.text_response_concluded (Extension._stopThinkingTimer g) p response)
    as (D & [([e0 F] & _) | (text & F & _)]); (split; [eauto | exact D]).
Qed.

Lemma get_total (v : JValue) (p : string) :
  Js.isNullish v = false -> exists r, Js.get v p = Return r.
Proof.
  destruct v; simpl; try discriminate; intros _; eauto;
    destruct (String.eqb p "length"); eauto.
Qed.

Lemma opt_get_total (v : JValue) (p : string) : exists r, Js.opt_get v p = Return r.
Proof.
  unfold Js.opt_get. destruct (Js.isNullish v) eqn:E; [eauto | now apply get_total].
Qed.

Lemma opt_first_total (v : JValue) : exists r, Js.opt_first v = Return r.
Proof.
  unfold Js.opt_first. destruct v as [| | | |s|l|o]; simpl; eauto. destruct s; eauto.
Qed.

Lemma truthy_not_nullish (v : JValue) : Js.truthy v = true -> Js.isNullish v = false.
Proof. now destruct v. Qed.

(** X19.  The Ollama adapter extracts a text from every reply that is not
    null or undefined without raising, and extracts the empty string from an
    object that has none of the fields message, response, choices and
    completions. *)
Theorem ollama_reads_any_reply (p : LLMProvider) (response : JValue) :
  kind p = Ollama ->
  Js.isNullish response = false ->
  (exists v, _extractResponseText p response = Return v)
  /\ (forall fields,
         response = JObj fields ->
         Js.lookup "message" fields = JUndefined ->
         Js.lookup "response" fields = JUndefined ->
         Js.lookup "choices" fields = JUndefined ->
         Js.lookup "completions" fields = JUndefined ->
         _extractResponseText p response = Return (JStr "")).
Proof.
  intros K Hn. unfold _extractResponseText. rewrite K. split.
  - unfold OllamaProvider._extractResponseText.
    destruct (get_total response "message" Hn) as [m ->]. simpl.
    assert (exists c, (if Js.truthy m then Js.get m "content" else Return JUndefined)
                      = Return c) as [c ->].
    { destruct (Js.truthy m) eqn:T; [|eauto]. apply get_total. now apply truthy_not_nullish. }
    simpl.
    assert (exists v,
               (let* r := Js.get response "response" in
                if Js.isString r then Return r else
                let* cs := Js.get response "choices" in
                let* c0 := Js.opt_first cs in
                let* msg := Js.opt_get c0 "message" in
                let* t := Js.opt_get msg "content" in
                if Js.truthy t then Return t else
                let* cps := Js.get response "completions" in
                let* cp := Js.opt_first cps in
                let* t' := Js.opt_get cp "text" in
                if Js.truthy t' then Return t' else Return (JStr "")) = Return v) as [v Hv].
    { destruct (get_total response "response" Hn) as [r ->]. simpl.
      destruct (Js.isString r); [eauto|].
      destruct (get_total response "choices" Hn) as [cs ->]. simpl.
      destruct (opt_first_total cs) as [c0 ->]. simpl.
      destruct (opt_get_total c0 "message") as [msg ->]. simpl.
      destruct (opt_get_total msg "content") as [t ->]. simpl.
      destruct (Js.truthy t); [eauto|].
      destruct (get_total response "completions" Hn) as [cps ->]. simpl.
      destruct (opt_first_total cps) as [cp ->]. simpl.
      destruct (opt_get_total cp "text") as [t' ->]. simpl.
      destruct (Js.truthy t'); eauto. }
    destruct c; eauto.
  - intros fields -> H1 H2 H3 H4. unfold OllamaProvider._extractResponseText.
    simpl. rewrite H1. simpl. rewrite H2. simpl. rewrite H3. simpl. now rewrite H4.
Qed.

End WithPlatform.

(** *** The closing think tag *)

Lemma prefix_cons (a b : ascii) (s t : string) :
  prefix (String a s) (String b t) = if Ascii.eqb a b then prefix s t else false.
Proof.
  simpl. destruct (ascii_dec a b) as [->|n].
  - now rewrite Ascii.eqb_refl.
  - apply Ascii.eqb_neq in n. now rewrite n.
Qed.

Ltac next_char H1 H2 s :=
  destruct s as [|?c s];
  [ cbn [append] in H2; rewrite ?prefix_cons in H2; cbn in H2; discriminate H2
  | cbn [append] in H2; rewrite prefix_cons in H1, H2;
    match type of H2 with
    | (if ?b then _ else _) = _ => destruct b; [|discriminate H2]
    end ].

Lemma prefix_think_after_open (s rest : string) :
  prefix "</think>" s = false ->
  prefix "</think>" (s ++ "</think>" ++ rest) = true ->
  s = "".
Proof.
  intros H1 H2.
  destruct s as [|c0 s]; [reflexivity|]. exfalso.
  cbn [append] in H2. rewrite prefix_cons in H1, H2.
  destruct (Ascii.eqb "<" c0); [|discriminate H2].
  do 7 next_char H1 H2 s.
  destruct s; discriminate H1.
Qed.

Lemma indexOf_think (pre rest : string) :
  includes pre "</think>" = false ->
  indexOf (pre ++ "</think>" ++ rest) "</think>" = Some (String.length pre).
Proof.
  induction pre as [|c pre IH]; intros H.
  - change (indexOf ("" ++ "</think>" ++ rest) "</think>")
      with (if prefix "</think>" ("</think>" ++ rest) then Some 0
            else option_map S (indexOf ("/think>" ++ rest) "</think>")).
    now rewrite prefix_append.
  - rewrite includes_eq in H.
    destruct (prefix "</think>" (String c pre)) eqn:E; [discriminate|].
    change (indexOf (String c pre ++ "</think>" ++ rest) "</think>")
      with (if prefix "</think>" (String c pre ++ "</think>" ++ rest) then Some 0
            else option_map S (indexOf (pre ++ "</think>" ++ rest) "</think>")).
    destruct (prefix "</think>" (String c pre ++ "</think>" ++ rest)) eqn:E2.
    + apply (prefix_think_after_open _ _ E) in E2. discriminate.
    + now rewrite (IH H).
Qed.

Lemma indexOf_none (s sub : string) : includes s sub = false -> indexOf s sub = None.
Proof.
  induction s as [|c s IH]; intros H.
  - destruct sub; [discriminate H | reflexivity].
  - rewrite includes_eq in H. change (indexOf (String c s) sub)
      with (if prefix sub (String c s) then Some 0 else option_map S (indexOf s sub)).
    destruct (prefix sub (String c s)); [discriminate|]. now rewrite (IH H).
Qed.

Lemma skip_append (a b : string) : skip (String.length a) (a ++ b) = b.
Proof. induction a as [|c a IH]; simpl; [now destruct b | exact IH]. Qed.

(** X20.  For the content of an Ollama reply: without a closing think tag
    the content is returned as it is; otherwise what follows the first
    closing think tag is returned, trimmed, unless that is blank, in which
    case the whole content is returned. *)
Theorem answer_after_the_think_tag (content pre rest : string) :
  (includes content "</think>" = false -> OllamaProvider.after_think content = content)
  /\ (includes pre "</think>" = false ->
      OllamaProvider.after_think (pre ++ "</think>" ++ rest)
      = if isEmpty (trim rest) then pre ++ "</think>" ++ rest else trim rest).
Proof.
  split; intros H; unfold OllamaProvider.after_think.
  - now rewrite (@indexOf_none content "</think>" H).
  - rewrite (@indexOf_think pre rest H).
    replace (skip (String.length pre + 8) (pre ++ "</think>" ++ rest)) with rest;
      [reflexivity|].
    replace (String.length pre + 8) with (String.length (pre ++ "</think>")).
    + now rewrite <- append_assoc, skip_append.
    + clear. induction pre as [|c pre IH]; simpl; [reflexivity | now rewrite IH].
Qed.

Lemma anthropic_reads_the_first_block_witness :
  _extractToolCalls (P := Fixture.platform) (Fixture.anthropic true)
                    (JObj Samples.mixed_reply)
  = Return (Some [call_of_block Samples.tool_use_block])
  /\ _extractResponseText (Fixture.anthropic true) (JObj Samples.mixed_reply)
     = Return (JStr "Let me look.").
Proof.
  destruct (@anthropic_reads_the_first_block Fixture.platform (Fixture.anthropic true)
              Samples.mixed_reply [Samples.text_block; Samples.tool_use_block]
              eq_refl eq_refl) as (H1 & H2 & _).
  - repeat constructor.
  - split.
    + apply (H1 [Samples.text_block] Samples.tool_use_block []);
        [reflexivity | repeat constructor | reflexivity].
    + apply (H2 [] Samples.text_block [Samples.tool_use_block]);
        [reflexivity | constructor | reflexivity].
Defined.

Lemma chat_adapters_report_every_call_witness :
  List.length
    [ {| id := JStr "call_1"; name := JStr "web_search"; input := JObj [] |};
      {| id := JStr "call_2"; name := JStr "youtube_summary"; input := JObj [] |} ]
  = List.length Samples.two_calls
  /\ map name
       [ {| id := JStr "call_1"; name := JStr "web_search"; input := JObj [] |};
         {| id := JStr "call_2"; name := JStr "youtube_summary"; input := JObj [] |} ]
     = map function_name Samples.two_calls.
Proof.
  apply (@chat_adapters_report_every_call Fixture.platform Samples.openai
           (Samples.chat_reply Samples.two_calls) Samples.two_calls
           [ {| id := JStr "call_1"; name := JStr "web_search"; input := JObj [] |};
             {| id := JStr "call_2"; name := JStr "youtube_summary"; input := JObj [] |} ]);
    reflexivity.
Defined.

Lemma unreadable_call_cancels_the_round_witness :
  idle (snd (Extension.callback (P := Fixture.platform) (Fixture.fresh true) Samples.openai
               (inr (Samples.chat_reply Samples.broken_calls)))).
Proof.
  destruct (@unreadable_call_cancels_the_round Fixture.platform (Fixture.fresh true)
              Samples.openai
              (Samples.chat_reply Samples.broken_calls) Samples.broken_calls
              (Samples.chat_call "call_2" "web_search" "{query")
              (SyntaxError "unexpected token")
              eq_refl eq_refl) as (_ & _ & H & _).
  - right. left. reflexivity.
  - reflexivity.
  - exact H.
Defined.

Lemma ollama_reads_any_reply_witness :
  _extractResponseText Samples.ollama (JObj []) = Return (JStr "").
Proof.
  destruct (@ollama_reads_any_reply Samples.ollama (JObj [])
              eq_refl eq_refl) as [_ H].
  apply (H []); reflexivity.
Defined.

End AdapterFacts.

(* ================================================================= *)
(** ** The transcript fetcher *)

Module FetchFacts.
Import JsString JsStringFacts YouTubeTranscriptFetcher TranscriptSpec FetchSpec.

Lemma prefix_step (a b : ascii) (s t : string) :
  prefix (String a s) (String b t) = if Ascii.eqb a b then prefix s t else false.
Proof.
  simpl. destruct (ascii_dec a b) as [->|n].
  - now rewrite Ascii.eqb_refl.
  - apply Ascii.eqb_neq in n. now rewrite n.
Qed.

Lemma take_id_append (v rest : string) :
  forallb_string isIdChar v = true ->
  take_id (String.length v) (v ++ rest) = Some v.
Proof.
  induction v as [|c v IH]; simpl; [reflexivity|].
  intros H. apply andb_true_iff in H as [Hc Hv]. now rewrite Hc, (IH Hv).
Qed.

Lemma skip_length (a b : string) : skip (String.length a) (a ++ b) = b.
Proof. induction a as [|c a IH]; simpl; [now destruct b | exact IH]. Qed.

Lemma id_after_here (lit v rest : string) :
  well_formed_id v -> id_after lit (lit ++ v ++ rest) = Some v.
Proof.
  intros [Hl Hf]. unfold id_after. rewrite prefix_append, skip_length, <- Hl.
  now apply take_id_append.
Qed.

Lemma url_shape_here_found (lit v rest : string) :
  well_formed_id v -> In lit url_prefixes ->
  url_shape_here (lit ++ v ++ rest) = Some v.
Proof.
  intros Hv [<-|[<-|[<-|[]]]]; unfold url_shape_here.
  - now rewrite id_after_here.
  - replace (id_after "youtube.com/watch?v=" ("youtu.be/" ++ v ++ rest)) with (@None string)
      by (unfold id_after; cbn [append]; now rewrite !prefix_step).
    cbn [or_else]. now rewrite id_after_here.
  - replace (id_after "youtube.com/watch?v=" ("youtube.com/embed/" ++ v ++ rest))
      with (@None string)
      by (unfold id_after; cbn [append]; now rewrite !prefix_step).
    replace (id_after "youtu.be/" ("youtube.com/embed/" ++ v ++ rest)) with (@None string)
      by (unfold id_after; cbn [append]; now rewrite !prefix_step).
    cbn [or_else]. now rewrite id_after_here.
Qed.

Lemma url_shape_eq (s : string) :
  url_shape s =
  match url_shape_here s with
  | Some v => Some v
  | None => match s with EmptyString => None | String _ r => url_shape r end
  end.
Proof. destruct s; reflexivity. Qed.

Lemma url_shape_here_needs_y (c : ascii) (r : string) :
  Ascii.eqb c "y" = false -> url_shape_here (String c r) = None.
Proof.
  intros H. rewrite Ascii.eqb_sym in H.
  unfold url_shape_here, id_after. now rewrite !prefix_step, H.
Qed.

Lemma url_shape_skips (pre s : string) :
  has_char "y" pre = false -> url_shape (pre ++ s) = url_shape s.
Proof.
  induction pre as [|c pre IH]; [reflexivity|]. simpl has_char. intros H.
  apply orb_false_iff in H as [Hc Hp]. cbn [append].
  rewrite url_shape_eq, (@url_shape_here_needs_y c (pre ++ s) Hc). now apply IH.
Qed.

Lemma literal_has_dot (lit t : string) :
  In lit url_prefixes -> forallb_string isIdChar (lit ++ t) = false.
Proof. intros [<-|[<-|[<-|[]]]]; reflexivity. Qed.

Lemma url_shape_here_on_id (s : string) :
  forallb_string isIdChar s = true -> url_shape_here s = None.
Proof.
  intros H. unfold url_shape_here, id_after.
  assert (forall lit, In lit url_prefixes -> prefix lit s = false) as N.
  { intros lit Hl. destruct (prefix lit s) eqn:E; [|reflexivity].
    apply prefix_split in E as [t ->]. now rewrite literal_has_dot in H. }
  rewrite !N by (simpl; auto). reflexivity.
Qed.

Lemma url_shape_on_id (s : string) :
  forallb_string isIdChar s = true -> url_shape s = None.
Proof.
  induction s as [|c s IH]; intros H; rewrite url_shape_eq, url_shape_here_on_id by exact H.
  - reflexivity.
  - simpl in H. apply andb_true_iff in H as [_ H]. now apply IH.
Qed.

Lemma bare_id_found (v : string) : well_formed_id v -> bare_id v = Some v.
Proof.
  intros [Hl Hf]. unfold bare_id.
  pose proof (@take_id_append v "" Hf) as T. rewrite append_empty_r, Hl in T. rewrite T.
  pose proof (skip_length v "") as K. rewrite append_empty_r, Hl in K. now rewrite K.
Qed.

(** X21.  extractVideoId returns an eleven-character identifier given alone,
    and returns it from any address made of a text without the letter y, one
    of the literals youtube.com/watch?v=, youtu.be/ or youtube.com/embed/,
    the identifier, and anything after it. *)
Theorem video_id_is_recovered (pre lit v rest : string) :
  well_formed_id v ->
  has_char "y" pre = false ->
  In lit url_prefixes ->
  extractVideoId v = Some v
  /\ extractVideoId (pre ++ lit ++ v ++ rest) = Some v.
Proof.
  intros Hv Hp Hl. unfold extractVideoId. split.
  - rewrite url_shape_on_id by apply Hv. now apply bare_id_found.
  - rewrite url_shape_skips by exact Hp.
    rewrite url_shape_eq, url_shape_here_found by assumption. reflexivity.
Qed.

Lemma video_id_is_recovered_witness :
  extractVideoId "dQw4w9WgXcQ" = Some "dQw4w9WgXcQ"
  /\ extractVideoId "https://www.youtube.com/watch?v=dQw4w9WgXcQ&t=42s" = Some "dQw4w9WgXcQ".
Proof.
  apply (@video_id_is_recovered "https://www." "youtube.com/watch?v=" "dQw4w9WgXcQ" "&t=42s").
  - split; reflexivity.
  - reflexivity.
  - simpl; auto.
Defined.

(** X22.  Whatever text fetchTranscript is given, every subprocess it starts
    is yt-dlp on https://www.youtube.com/watch?v=<id> with the fixed
    options, and every file it queries, loads or deletes is
    /tmp/<id>.en.vtt, where <id> is the eleven-character identifier
    extracted from the text. *)
Theorem fetch_names_only_the_video (host : Host) (videoUrl : string) (e : Effect) :
  In e (fst (fetchTranscript host videoUrl)) ->
  exists videoId,
    extractVideoId videoUrl = Some videoId
    /\ String.length videoId = 11
    /\ forallb_string isIdChar videoId = true
    /\ names_only videoId e.
Proof.
  unfold fetchTranscript.
  destruct (extractVideoId videoUrl) as [v|] eqn:E; [|intros []].
  destruct (@YouTubeFacts.extractVideoId_sound videoUrl v E) as [Hl Hf].
  intros H. exists v. split; [reflexivity|]. split; [exact Hl|]. split; [exact Hf|].
  destruct (isEmpty v); [destruct H|].
  destruct (process host _) as [x|x|[|] out err]; simpl in H.
  - destruct H as [<-|[]]. reflexivity.
  - destruct H as [<-|[]]. reflexivity.
  - destruct (file host _) as [|x|[|] contents]; simpl in H;
      repeat (destruct H as [<-|H]; [reflexivity|]); destruct H.
  - destruct H as [<-|[]]. reflexivity.
Qed.

Lemma fetch_names_only_the_video_witness :
  exists videoId,
    extractVideoId "https://youtu.be/dQw4w9WgXcQ --exec id" = Some videoId
    /\ String.length videoId = 11
    /\ forallb_string isIdChar videoId = true
    /\ names_only videoId (Spawn (argv_for (watch_url "dQw4w9WgXcQ"))).
Proof.
  apply (@fetch_names_only_the_video failing_host "https://youtu.be/dQw4w9WgXcQ --exec id").
  simpl. left. reflexivity.
Defined.

(** X23.  fetchTranscript hands on a transcript exactly when an identifier
    was extracted, yt-dlp exited successfully and the subtitle file was
    loaded, and the transcript is then _parseVTT of the file's content; the
    subtitle file is deleted in exactly that case. *)
Theorem transcript_needs_the_subtitle_file (host : Host) (videoUrl transcript : string) :
  (snd (fetchTranscript host videoUrl) = inr transcript <->
   exists videoId stdout stderr contents,
     extractVideoId videoUrl = Some videoId
     /\ process host (argv_for (watch_url videoId)) = Exited true stdout stderr
     /\ file host (subtitle_file videoId) = Loaded true contents
     /\ transcript = _parseVTT contents)
  /\ (deletes (fst (fetchTranscript host videoUrl)) = true <->
      exists t, snd (fetchTranscript host videoUrl) = inr t).
Proof.
  unfold fetchTranscript.
  destruct (extractVideoId videoUrl) as [v|] eqn:E.
  2:{ split; split; cbn [fst snd]; try discriminate.
      - intros (? & ? & ? & ? & ? & _); discriminate.
      - intros [? ?]; discriminate. }
  pose proof (@YouTubeFacts.extractVideoId_sound videoUrl v E) as [Hl _].
  destruct v as [|c v]; [discriminate|]. cbv beta iota delta [isEmpty].
  fold (watch_url (String c v)). fold (subtitle_file (String c v)).
  destruct (process host _) as [x|x|[|] out err] eqn:Ep.
  1,2,4: split; split; cbn [fst snd]; try discriminate;
    [ intros (? & ? & ? & ? & [= <-] & Q & _); rewrite Ep in Q; discriminate Q
    | intros [? ?]; discriminate ].
  destruct (file host _) as [|x|[|] contents] eqn:Ef.
  1,2,4: split; split; cbn [fst snd]; try discriminate;
    [ intros (? & ? & ? & ? & [= <-] & _ & Q & _); rewrite Ef in Q; discriminate Q
    | intros [? ?]; discriminate ].
  split; split; cbn [fst snd].
  - intros [= <-]. exists (String c v), out, err, contents. auto.
  - intros (? & ? & ? & ? & [= <-] & _ & Q & ->). rewrite Ef in Q. now injection Q as <-.
  - eauto.
  - reflexivity.
Qed.

(** *** The transcript is one line *)








Section WithPlatform.
Context {P : Platform}.
Import Extension.

(** X25.  When a transcript fetch in flight succeeds, the loop appends
    exactly one user turn, which names the video by its canonical address
    built from the extracted identifier and holds the transcript, counts one
    more tool call, and sends the whole history to the provider the settings
    name. *)
Theorem transcript_round_names_the_video (w : World) (s : Session) (p : LLMProvider)
        (videoUrl transcript : string) :
  flight s = TranscriptFetch p videoUrl ->
  snd (fetchTranscript (host w (tools s)) videoUrl) = inr transcript ->
  exists videoId turn,
    extractVideoId videoUrl = Some videoId
    /\ _history (app (step w s)) = (_history (app s) ++ [turn])%list
    /\ role turn = MessageRoles.USER
    /\ includes (content turn) ("Video: " ++ watch_url videoId ++ nl) = true
    /\ includes (content turn) (nl ++ transcript ++ nl) = true
    /\ flight (step w s)
       = LLMRequest (LoopSpec.provider_of (_settingsManager (app s)))
                    (_history (app (step w s)))
    /\ tools (step w s) = S (tools s).
Proof.
  intros F E.
  assert (exists videoId, extractVideoId videoUrl = Some videoId) as [v Ev].
  { unfold fetchTranscript in E. destruct (extractVideoId videoUrl); [eauto | discriminate]. }
  exists v, (transcript_turn videoUrl transcript).
  split; [exact Ev|].
  assert (step w s
          = {| app := setHistory (push (transcript_turn videoUrl transcript) (app s));
               flight := LLMRequest (LoopSpec.provider_of (_settingsManager (app s)))
                                    (_history (app s) ++ [transcript_turn videoUrl transcript]);
               requests := requests s; tools := S (tools s) |}) as ->
    by (unfold step; rewrite F, E; reflexivity).
  split; [reflexivity|]. split; [reflexivity|].
  change (content (transcript_turn videoUrl transcript))
    with (formatTranscript videoUrl transcript).
  unfold formatTranscript, watch_url. rewrite Ev.
  split; [|split; [|split; reflexivity]].
  - apply includes_spec. exists ("[YOUTUBE VIDEO TRANSCRIPT]" ++ nl ++ nl).
    eexists. rewrite !append_assoc. reflexivity.
  - apply includes_spec.
    exists ("[YOUTUBE VIDEO TRANSCRIPT]" ++ nl ++ nl
            ++ "Video: https://www.youtube.com/watch?v=" ++ v ++ nl ++ nl ++ "Transcript:").
    eexists. rewrite !append_assoc. reflexivity.
Qed.

End WithPlatform.

Lemma transcript_round_names_the_video_witness :
  exists videoId turn,
    extractVideoId "https://youtu.be/dQw4w9WgXcQ" = Some videoId
    /\ _history (Extension.app (Extension.step (P := Fixture.platform)
                                   Samples.subtitled_world Samples.fetching)) = [turn]
    /\ role turn = MessageRoles.USER
    /\ includes (content turn) (nl ++ "hello" ++ nl) = true.
Proof.
  destruct (@transcript_round_names_the_video Fixture.platform Samples.subtitled_world
              Samples.fetching (Fixture.anthropic true) "https://youtu.be/dQw4w9WgXcQ"
              "hello" eq_refl eq_refl) as (v & turn & H1 & H2 & H3 & _ & H5 & _).
  exists v, turn. repeat split; assumption.
Defined.

End FetchFacts.

(* ================================================================= *)
(** ** The search client *)

Module SearchMoreFacts.
Import JsString JsStringFacts SearXNGSearchClient SearchSpec SearchMoreSpec.

Lemma firstn_exact (A : Type) (es more : list A) :
  firstn (Nat.min (List.length (es ++ more)) (List.length es)) (es ++ more) = es.
Proof.
  rewrite length_app, Nat.min_r by lia.
  rewrite firstn_app, Nat.sub_diag, firstn_all. simpl. apply app_nil_r.
Qed.

(** X26.  _parseResults reads the first five entries of results only: two
    envelopes whose results agree on their first five entries give the same
    records, or raise alike, whatever follows. *)
Theorem entries_after_the_fifth_are_ignored
        (fs fs' : list (string * JValue)) (es more more' : list JValue) :
  List.length es = 5 ->
  Js.lookup "results" fs = JArr (es ++ more) ->
  Js.lookup "results" fs' = JArr (es ++ more') ->
  _parseResults (JObj fs) = _parseResults (JObj fs')
  /\ _parseResults (JObj fs) = parse_entries es.
Proof.
  intros H5 H H'. unfold _parseResults. simpl. rewrite H, H'.
  rewrite <- H5, !firstn_exact. now split.
Qed.

Lemma parse_entry_nullish (e : JValue) :
  Js.isNullish e = true -> exists err, parse_entry e = Throw err.
Proof. destruct e; try discriminate; intros _; unfold parse_entry; simpl; eauto. Qed.

Lemma parse_entries_nullish (es : list JValue) (e : JValue) :
  In e es -> Js.isNullish e = true -> exists err, parse_entries es = Throw err.
Proof.
  intros Hi Hn. induction es as [|x es IH]; [destruct Hi|]. simpl.
  destruct (parse_entry x) as [r|err] eqn:Ex; [|simpl; eauto].
  destruct Hi as [->|Hi].
  - destruct (parse_entry_nullish _ Hn) as [err Q]. congruence.
  - destruct (IH Hi) as [err ->]. simpl. eauto.
Qed.

Section WithPlatform.
Context {P : Platform}.


(** X28.  An entry that is null or undefined among the first five entries of
    results is not skipped: reading it raises, and search hands that
    exception to its callback as the error although the instance answered
    with status 200. *)
Theorem null_entry_fails_the_search (d : string) (q : JValue) (text : string)
        (fs : list (string * JValue)) (entries : list JValue) (e : JValue) :
  JSON_parse (JStr text) = Return (JObj fs) ->
  Js.lookup "results" fs = JArr entries ->
  In e (firstn 5 entries) ->
  Js.isNullish e = true ->
  exists err, search d q (Finished 200 (Some text)) = inl (Caught err).
Proof.
  intros Hp Hr Hi Hn. unfold search. simpl. rewrite Hp. simpl.
  unfold _parseResults. simpl. rewrite Hr, SearchFacts.firstn_min.
  destruct (parse_entries_nullish _ _ Hi Hn) as [err ->]. simpl. eauto.
Qed.




End WithPlatform.
Lemma entries_after_the_fifth_are_ignored_witness :
  _parseResults (JObj [("results", JArr (Samples.five_entries ++ [JNull]))])
  = _parseResults (JObj [("results", JArr (Samples.five_entries ++ []))])
  /\ _parseResults (JObj [("results", JArr (Samples.five_entries ++ [JNull]))])
     = parse_entries Samples.five_entries.
Proof.
  apply (@entries_after_the_fifth_are_ignored
           [("results", JArr (Samples.five_entries ++ [JNull]))]
           [("results", JArr (Samples.five_entries ++ []))]
           Samples.five_entries [JNull] []); reflexivity.
Defined.

Lemma null_entry_fails_the_search_witness :
  exists err,
    search (P := Samples.platform) "Monday" (JStr "weather today")
           (Finished 200 (Some Samples.null_entry_text)) = inl (Caught err).
Proof.
  apply (@null_entry_fails_the_search Samples.platform "Monday" (JStr "weather today")
           Samples.null_entry_text [("results", JArr [JNull])] [JNull] JNull).
  - reflexivity.
  - reflexivity.
  - left. reflexivity.
  - reflexivity.
Defined.


End SearchMoreFacts.
